(** * Structured-output clients: schema translation and response decoding

    A shallow embedding of [src/LLMChatClient.ts], [src/GeminiClient.ts] and
    [src/ChatGPTClient.ts].

    - JavaScript strings are [string]s, holding the bytes of their UTF-8
      encoding; string literals of the source are written as they are.
    - A JavaScript object used as a record ([Record<string, T>]) is the list
      of its own entries in the order [Object.entries] reports them (array
      indices, which an engine reports first, are not considered).  The
      prototype of an object is not part of the record.
    - A call that may throw (or an awaited promise that may reject) is an
      [Outcome]: [Return v] or [Throw e]. *)

From Stdlib Require Import String Ascii List ZArith Bool Lia.
Import ListNotations.
Local Open Scope string_scope.
Local Open Scope list_scope.

Set Implicit Arguments.
Set Warnings "-register-all".

(** ** Exceptions and outcomes *)

(** The exceptions the code throws or lets through: [new Error(message)]
    from the clients, the [SyntaxError] of [JSON.parse], and whatever an SDK
    call rejects with. *)
Inductive JsError : Type :=
| Error (message : string)
| SyntaxError (message : string)
| SdkError (name message : string).

Inductive Outcome (A : Type) : Type :=
| Return (value : A)
| Throw (error : JsError).
Arguments Return {A} value.
Arguments Throw {A} error.

Definition bind {A B : Type} (c : Outcome A) (k : A -> Outcome B) : Outcome B :=
  match c with
  | Return a => k a
  | Throw e => Throw e
  end.

(** [try { c } catch (error) { h error }] *)
Definition try_catch {A : Type} (c : Outcome A) (h : JsError -> Outcome A)
  : Outcome A :=
  match c with
  | Return a => Return a
  | Throw e => h e
  end.

Notation "x <- c ;; k" := (bind c (fun x => k))
  (at level 61, c at next level, right associativity).

Definition returns {A : Type} (c : Outcome A) : bool :=
  match c with Return _ => true | Throw _ => false end.

(** ** Records with string keys *)

Definition Entries (T : Type) : Type := list (string * T).

Definition keys {T : Type} (o : Entries T) : list string := map fst o.

(** The definition of an own property, as [JSON.parse] and an object
    literal do it: an existing entry keeps its place and gets the new value,
    a new key goes to the end. *)
Fixpoint obj_define {T : Type} (o : Entries T) (key : string) (value : T)
  : Entries T :=
  match o with
  | [] => [(key, value)]
  | (k, v) :: rest =>
      if String.eqb k key then (k, value) :: rest
      else (k, v) :: obj_define rest key value
  end.

(** [o[key] = value] on an object made by [{}]: the definition of an own
    property, except for the key [__proto__], where the assignment goes to
    the accessor of [Object.prototype], which changes the prototype of [o]
    and gives it no own property. *)
Definition obj_set {T : Type} (o : Entries T) (key : string) (value : T)
  : Entries T :=
  if String.eqb key "__proto__" then o else obj_define o key value.

(** The entries an assignment stores. *)
Definition own_entries {T : Type} (o : Entries T) : Entries T :=
  filter (fun kv => negb (String.eqb (fst kv) "__proto__")) o.

Fixpoint obj_get {T : Type} (o : Entries T) (key : string) : option T :=
  match o with
  | [] => None
  | (k, v) :: rest => if String.eqb k key then Some v else obj_get rest key
  end.

(** ** JSON values *)

(** A decoded JSON document.  A number is kept as the exact decimal value
    [mantissa * 10 ^ exponent] of its literal; the rounding of the literal to
    a double is outside this model. *)
Inductive Json : Type :=
| JNull
| JBool (b : bool)
| JNumber (mantissa exponent : Z)
| JString (s : string)
| JArray (elements : list Json)
| JObject (members : list (string * Json)).

(** ** Schemas ([LLMChatClient.ts]) *)

(** The [type] field as the translator may find it: absent, one type name,
    or (the OpenAI interface allows it) an array of type names. *)
Inductive TypeField : Type :=
| TypeAbsent
| TypeName (name : string)
| TypeNames (names : list string).

(** [jsonSchema.type === name] *)
Definition type_is (t : TypeField) (name : string) : bool :=
  match t with
  | TypeName n => String.eqb n name
  | _ => false
  end.

(** [`${jsonSchema.type}`] *)
Definition type_to_string (t : TypeField) : string :=
  match t with
  | TypeAbsent => "undefined"
  | TypeName n => n
  | TypeNames ns => String.concat "," ns
  end.

(** A schema object as the clients receive it ([IOpenAIJSONSchema |
    IGeminiJSONSchema], read as [any] by the translator).  [keywords] holds
    every other key of the object: [description], [enum], [pattern],
    [format], [minimum], [additionalProperties], ... *)
Inductive JsonSchema : Type :=
  mkJsonSchema {
    type : TypeField;
    properties : option (Entries JsonSchema);
    items : option JsonSchema;
    required : option (list string);
    anyOf : option (list JsonSchema);
    keywords : Entries Json }.

(** [GeminiSchemaType]: the type names of the Gemini dialect. *)
Definition GeminiSchemaType : list string :=
  ["string"; "number"; "integer"; "boolean"; "array"; "object"].

(** The SDK's [SchemaType] enumeration; its members stand for the type names
    of [GeminiSchemaType]. *)
Module SchemaType.
Inductive t : Type := STRING | NUMBER | INTEGER | BOOLEAN | ARRAY | OBJECT.

Definition value (x : t) : string :=
  match x with
  | STRING => "string"
  | NUMBER => "number"
  | INTEGER => "integer"
  | BOOLEAN => "boolean"
  | ARRAY => "array"
  | OBJECT => "object"
  end.

Definition all : list t := [STRING; NUMBER; INTEGER; BOOLEAN; ARRAY; OBJECT].
End SchemaType.

(** The three object literals the translator returns:
    [{ type: OBJECT, properties, required }], [{ type: ARRAY, items }] and
    [{ type }]. *)
Inductive GeminiSchema : Type :=
| ObjectSchema (properties : Entries GeminiSchema) (required : list string)
| ArraySchema (items : GeminiSchema)
| TypeSchema (type : SchemaType.t).

(** ** The translator ([GeminiClient.jsonSchemaToGeminiSchema]) *)

(** [required || []] *)
Definition or_empty {T : Type} (l : option (list T)) : list T :=
  match l with
  | Some r => r
  | None => []
  end.

Definition unsupported_prefix : string := "Unsupported JSON Schema type: ".

Fixpoint jsonSchemaToGeminiSchema (jsonSchema : JsonSchema)
  : Outcome GeminiSchema :=
  match jsonSchema with
  | mkJsonSchema ty props its req _ _ =>
      match type_is ty "object", props with
      | true, Some entries =>
          (* for (const [key, value] of Object.entries(...)) properties[key] = ... *)
          properties <-
            (fix each (es : Entries JsonSchema) (properties : Entries GeminiSchema)
               : Outcome (Entries GeminiSchema) :=
               match es with
               | [] => Return properties
               | (key, value) :: rest =>
                   translated <- jsonSchemaToGeminiSchema value ;;
                   each rest (obj_set properties key translated)
               end) entries [] ;;
          Return (ObjectSchema properties (or_empty req))
      | _, _ =>
          match type_is ty "array", its with
          | true, Some it =>
              translated <- jsonSchemaToGeminiSchema it ;;
              Return (ArraySchema translated)
          | _, _ =>
              if type_is ty "string" then Return (TypeSchema SchemaType.STRING)
              else if type_is ty "number" || type_is ty "integer"
                   then Return (TypeSchema SchemaType.NUMBER)
              else if type_is ty "boolean" then Return (TypeSchema SchemaType.BOOLEAN)
              else Throw (Error (unsupported_prefix ++ type_to_string ty))
          end
      end
  end.

(** The loop over [Object.entries(jsonSchema.properties)], with the record
    [properties] built so far. *)
Fixpoint translate_entries (es : Entries JsonSchema)
  (properties : Entries GeminiSchema) : Outcome (Entries GeminiSchema) :=
  match es with
  | [] => Return properties
  | (key, value) :: rest =>
      translated <- jsonSchemaToGeminiSchema value ;;
      translate_entries rest (obj_set properties key translated)
  end.

(** ** What an inspection of a schema tree shows *)

Inductive Shape : Type :=
| ObjectShape (props : Entries Shape)
| ArrayShape (item : Shape)
| UnionShape (alternatives : list Shape)
| LeafShape (type : string).

Fixpoint source_shape (s : JsonSchema) : Shape :=
  match s with
  | mkJsonSchema ty props its _ alts _ =>
      match type_is ty "object", props with
      | true, Some entries =>
          ObjectShape (map (fun kv => (fst kv, source_shape (snd kv))) entries)
      | _, _ =>
          match type_is ty "array", its with
          | true, Some it => ArrayShape (source_shape it)
          | _, _ =>
              match alts with
              | Some l => UnionShape (map source_shape l)
              | None => LeafShape (type_to_string ty)
              end
          end
      end
  end.

Fixpoint target_shape (g : GeminiSchema) : Shape :=
  match g with
  | ObjectSchema props _ =>
      ObjectShape (map (fun kv => (fst kv, target_shape (snd kv))) props)
  | ArraySchema it => ArrayShape (target_shape it)
  | TypeSchema t => LeafShape (SchemaType.value t)
  end.

Definition shape_type (sh : Shape) : string :=
  match sh with
  | ObjectShape _ => "object"
  | ArrayShape _ => "array"
  | UnionShape _ => "anyOf"
  | LeafShape t => t
  end.

Definition list_max (l : list nat) : nat := fold_right Nat.max 0 l.

(** Nesting depth: a leaf has depth 1, a container one more than its deepest
    child. *)
Fixpoint depth (sh : Shape) : nat :=
  match sh with
  | ObjectShape props => S (list_max (map (fun kv => depth (snd kv)) props))
  | ArrayShape it => S (depth it)
  | UnionShape alts => S (list_max (map depth alts))
  | LeafShape _ => 1
  end.

(** A position in a tree: down a property, into the items of an array, or
    into an alternative of a union. *)
Inductive Step : Type :=
| Property (key : string)
| Items
| Alternative (index : nat).

Definition Path : Type := list Step.

Fixpoint at_path (p : Path) (sh : Shape) : option Shape :=
  match p with
  | [] => Some sh
  | step :: rest =>
      match step, sh with
      | Property key, ObjectShape props =>
          match obj_get props key with
          | Some child => at_path rest child
          | None => None
          end
      | Items, ArrayShape it => at_path rest it
      | Alternative i, UnionShape alts =>
          match nth_error alts i with
          | Some child => at_path rest child
          | None => None
          end
      | _, _ => None
      end
  end.

(** (a) the property names of the object node at a position *)
Definition names_at (p : Path) (sh : Shape) : option (list string) :=
  match at_path p sh with
  | Some (ObjectShape props) => Some (keys props)
  | _ => None
  end.

(** (c) the declared item type of the array node at a position *)
Definition item_type_at (p : Path) (sh : Shape) : option string :=
  match at_path p sh with
  | Some (ArrayShape it) => Some (shape_type it)
  | _ => None
  end.

Definition shape_preserved (s : JsonSchema) (g : GeminiSchema) : Prop :=
  (forall p, names_at p (target_shape g) = names_at p (source_shape s)) /\
  depth (target_shape g) = depth (source_shape s) /\
  (forall p, item_type_at p (target_shape g) = item_type_at p (source_shape s)).

(** ** The node kinds of the canonical model *)

Fixpoint distinct (l : list string) : bool :=
  match l with
  | [] => true
  | x :: rest => negb (existsb (String.eqb x) rest) && distinct rest
  end.

Definition is_primitive (ty : TypeField) : bool :=
  type_is ty "string" || type_is ty "number" || type_is ty "integer"
  || type_is ty "boolean".

(** A tree of string, number (or integer), boolean, array, object and union
    nodes.  With [unions := false] union nodes are left out. *)
Fixpoint built_from (unions : bool) (s : JsonSchema) : bool :=
  match s with
  | mkJsonSchema ty props its _ alts _ =>
      match type_is ty "object", props with
      | true, Some entries =>
          distinct (keys entries)
          && forallb (fun kv => built_from unions (snd kv)) entries
      | _, _ =>
          match type_is ty "array", its with
          | true, Some it => built_from unions it
          | _, _ =>
              match alts with
              | Some l => unions && forallb (built_from unions) l
              | None => is_primitive ty
              end
          end
      end
  end.

Definition canonical : JsonSchema -> bool := built_from true.
Definition union_free : JsonSchema -> bool := built_from false.

(** ** [JSON.parse] *)

(** The strict JSON grammar of the engine's [JSON.parse], over the bytes of
    the text.  Escapes [uXXXX] are decoded to the UTF-8 bytes of their code
    point (a surrogate pair to those of the combined code point). *)
Module JSON.

Definition code (c : ascii) : N := N_of_ascii c.

Definition is_char (c : ascii) (n : N) : bool := N.eqb (code c) n.

Definition is_ws (c : ascii) : bool :=
  is_char c 32 || is_char c 9 || is_char c 10 || is_char c 13.

Definition is_digit (c : ascii) : bool :=
  N.leb 48 (code c) && N.leb (code c) 57.

Definition digit_value (c : ascii) : Z := Z.of_N (code c) - 48.

Definition hex_value (c : ascii) : option N :=
  let n := code c in
  if N.leb 48 n && N.leb n 57 then Some (n - 48)%N
  else if N.leb 65 n && N.leb n 70 then Some (n - 55)%N
  else if N.leb 97 n && N.leb n 102 then Some (n - 87)%N
  else None.

Definition hex4 (a b c d : ascii) : option N :=
  match hex_value a, hex_value b, hex_value c, hex_value d with
  | Some x, Some y, Some z, Some w => Some (((x * 16 + y) * 16 + z) * 16 + w)%N
  | _, _, _, _ => None
  end.

Definition byte (n : N) : ascii := ascii_of_N n.

Definition utf8 (cp : N) : list ascii :=
  if N.ltb cp 128 then [byte cp]
  else if N.ltb cp 2048 then
    [byte (192 + cp / 64); byte (128 + cp mod 64)]
  else if N.ltb cp 65536 then
    [byte (224 + cp / 4096); byte (128 + (cp / 64) mod 64);
     byte (128 + cp mod 64)]
  else
    [byte (240 + cp / 262144); byte (128 + (cp / 4096) mod 64);
     byte (128 + (cp / 64) mod 64); byte (128 + cp mod 64)].

Definition is_high_surrogate (n : N) : bool := N.leb 55296 n && N.leb n 56319.
Definition is_low_surrogate (n : N) : bool := N.leb 56320 n && N.leb n 57343.

Definition surrogate_pair (hi lo : N) : N :=
  (65536 + (hi - 55296) * 1024 + (lo - 56320))%N.

Definition simple_escape (c : ascii) : option ascii :=
  let n := code c in
  if N.eqb n 34 then Some (byte 34)            (* quotation mark *)
  else if N.eqb n 92 then Some (byte 92)       (* reverse solidus *)
  else if N.eqb n 47 then Some (byte 47)       (* solidus *)
  else if N.eqb n 98 then Some (byte 8)        (* b: backspace *)
  else if N.eqb n 102 then Some (byte 12)      (* f: form feed *)
  else if N.eqb n 110 then Some (byte 10)      (* n: line feed *)
  else if N.eqb n 114 then Some (byte 13)      (* r: carriage return *)
  else if N.eqb n 116 then Some (byte 9)       (* t: tab *)
  else None.

Definition prepend (pre : list ascii) (r : option (list ascii * list ascii))
  : option (list ascii * list ascii) :=
  match r with
  | Some (chars, rest) => Some (pre ++ chars, rest)
  | None => None
  end.

Fixpoint skip_ws (s : list ascii) : list ascii :=
  match s with
  | c :: r => if is_ws c then skip_ws r else s
  | [] => []
  end.

(** The characters of a string up to its closing quote, decoded; the text
    after the quote. *)
Fixpoint string_chars (s : list ascii) : option (list ascii * list ascii) :=
  match s with
  | [] => None
  | c :: r =>
      if is_char c 34 then Some ([], r)
      else if is_char c 92 then
        match r with
        | [] => None
        | e :: r1 =>
            if is_char e 117 then
              match r1 with
              | h1 :: h2 :: h3 :: h4 :: r2 =>
                  match hex4 h1 h2 h3 h4 with
                  | None => None
                  | Some hi =>
                      match is_high_surrogate hi, r2 with
                      | true, b :: u :: l1 :: l2 :: l3 :: l4 :: r3 =>
                          match is_char b 92 && is_char u 117, hex4 l1 l2 l3 l4 with
                          | true, Some lo =>
                              if is_low_surrogate lo
                              then prepend (utf8 (surrogate_pair hi lo)) (string_chars r3)
                              else prepend (utf8 hi) (string_chars r2)
                          | _, _ => prepend (utf8 hi) (string_chars r2)
                          end
                      | _, _ => prepend (utf8 hi) (string_chars r2)
                      end
                  end
              | _ => None
              end
            else
              match simple_escape e with
              | Some ch => prepend [ch] (string_chars r1)
              | None => None
              end
        end
      else if N.ltb (code c) 32 then None
      else prepend [c] (string_chars r)
  end.

Fixpoint digits (s : list ascii) : list ascii * list ascii :=
  match s with
  | c :: r =>
      if is_digit c then let (ds, rest) := digits r in (c :: ds, rest)
      else ([], s)
  | [] => ([], [])
  end.

Definition digits_value (ds : list ascii) : Z :=
  fold_left (fun acc d => acc * 10 + digit_value d)%Z ds 0%Z.

(** [0] or a digit [1]..[9] followed by digits. *)
Definition int_part (s : list ascii) : option (list ascii * list ascii) :=
  match s with
  | c :: r =>
      if is_char c 48 then Some ([c], r)
      else if is_digit c then let (ds, rest) := digits r in Some (c :: ds, rest)
      else None
  | [] => None
  end.

Definition frac_part (s : list ascii) : option (list ascii * list ascii) :=
  match s with
  | c :: r =>
      if is_char c 46 then
        match digits r with
        | ([], _) => None
        | (ds, rest) => Some (ds, rest)
        end
      else Some ([], s)
  | [] => Some ([], [])
  end.

Definition exp_part (s : list ascii) : option (Z * list ascii) :=
  match s with
  | c :: r =>
      if is_char c 101 || is_char c 69 then
        let (negative, r1) :=
          match r with
          | sg :: r' =>
              if is_char sg 45 then (true, r')
              else if is_char sg 43 then (false, r')
              else (false, r)
          | [] => (false, r)
          end in
        match digits r1 with
        | ([], _) => None
        | (ds, rest) =>
            Some ((if negative then - digits_value ds else digits_value ds)%Z, rest)
        end
      else Some (0%Z, s)
  | [] => Some (0%Z, [])
  end.

Definition number (s : list ascii) : option (Json * list ascii) :=
  let (negative, s1) :=
    match s with
    | c :: r => if is_char c 45 then (true, r) else (false, s)
    | [] => (false, s)
    end in
  match int_part s1 with
  | None => None
  | Some (ip, s2) =>
      match frac_part s2 with
      | None => None
      | Some (fp, s3) =>
          match exp_part s3 with
          | None => None
          | Some (e, s4) =>
              let m := digits_value (ip ++ fp) in
              Some (JNumber (if negative then - m else m)%Z
                      (e - Z.of_nat (length fp))%Z, s4)
          end
      end
  end.

Fixpoint literal (word s : list ascii) : option (list ascii) :=
  match word, s with
  | [], _ => Some s
  | w :: word', c :: r => if Ascii.eqb w c then literal word' r else None
  | _ :: _, [] => None
  end.

Definition chars (s : string) : list ascii := list_ascii_of_string s.
Definition text (l : list ascii) : string := string_of_list_ascii l.

Fixpoint value (fuel : nat) (s : list ascii) : option (Json * list ascii) :=
  match fuel with
  | O => None
  | S fuel' =>
      match skip_ws s with
      | [] => None
      | c :: r =>
          if is_char c 123 then                       (* { *)
            match skip_ws r with
            | c1 :: r1 =>
                if is_char c1 125 then Some (JObject [], r1)
                else members fuel' (c1 :: r1) []
            | [] => None
            end
          else if is_char c 91 then                   (* [ *)
            match skip_ws r with
            | c1 :: r1 =>
                if is_char c1 93 then Some (JArray [], r1)
                else elements fuel' (c1 :: r1) []
            | [] => None
            end
          else if is_char c 34 then
            match string_chars r with
            | Some (cs, rest) => Some (JString (text cs), rest)
            | None => None
            end
          else if is_char c 116 then
            option_map (pair (JBool true)) (literal (chars "true") (c :: r))
          else if is_char c 102 then
            option_map (pair (JBool false)) (literal (chars "false") (c :: r))
          else if is_char c 110 then
            option_map (pair JNull) (literal (chars "null") (c :: r))
          else number (c :: r)
      end
  end
with elements (fuel : nat) (s : list ascii) (acc : list Json)
  : option (Json * list ascii) :=
  match fuel with
  | O => None
  | S fuel' =>
      match value fuel' s with
      | None => None
      | Some (v, r) =>
          match skip_ws r with
          | c :: r1 =>
              if is_char c 44 then elements fuel' r1 (acc ++ [v])
              else if is_char c 93 then Some (JArray (acc ++ [v]), r1)
              else None
          | [] => None
          end
      end
  end
with members (fuel : nat) (s : list ascii) (acc : Entries Json)
  : option (Json * list ascii) :=
  match fuel with
  | O => None
  | S fuel' =>
      match skip_ws s with
      | q :: r =>
          if is_char q 34 then
            match string_chars r with
            | None => None
            | Some (k, r1) =>
                match skip_ws r1 with
                | colon :: r2 =>
                    if is_char colon 58 then
                      match value fuel' r2 with
                      | None => None
                      | Some (v, r3) =>
                          match skip_ws r3 with
                          | c :: r4 =>
                              if is_char c 44
                              then members fuel' r4 (obj_define acc (text k) v)
                              else if is_char c 125
                              then Some (JObject (obj_define acc (text k) v), r4)
                              else None
                          | [] => None
                          end
                      end
                    else None
                | [] => None
                end
            end
          else None
      | [] => None
      end
  end.

(** A whole text: one value between optional white space.  [fuel] bounds
    the nesting of the calls, each of which reads at least one character
    itself or in the call it makes next. *)
Definition decode (t : string) : option Json :=
  let s := chars t in
  match value (2 * length s + 2) s with
  | Some (v, rest) =>
      match skip_ws rest with
      | [] => Some v
      | _ :: _ => None
      end
  | None => None
  end.

End JSON.

(** [JSON.parse(text)]: the decoded value, or a [SyntaxError] whose message
    is the engine's own wording, [syntaxErrorMessage text]. *)
Definition JSON_parse (syntaxErrorMessage : string -> string) (text : string)
  : Outcome Json :=
  match JSON.decode text with
  | Some v => Return v
  | None => Throw (SyntaxError (syntaxErrorMessage text))
  end.

(** ** Messages, configuration and response ([LLMChatClient.ts]) *)

Inductive Role : Type := system | user | assistant.

Definition role_string (r : Role) : string :=
  match r with
  | system => "system"
  | user => "user"
  | assistant => "assistant"
  end.

Record Message : Type := mkMessage {
  role : Role;
  content : string }.

Record StructuredOutputConfig : Type := mkConfig {
  schema : JsonSchema;
  schemaName : string;
  schemaDescription : option string }.

Record StructuredOutputResponse (Raw : Type) : Type := mkResponse {
  data : Json;
  rawResponse : Raw }.
Arguments mkResponse {Raw} data rawResponse.

(** ** JavaScript strings *)

Definition upper_char (c : ascii) : ascii :=
  let n := nat_of_ascii c in
  if Nat.leb 97 n && Nat.leb n 122 then ascii_of_nat (n - 32) else c.

(** [s.toUpperCase()], on texts of ASCII letters such as the role names. *)
Fixpoint toUpperCase (s : string) : string :=
  match s with
  | EmptyString => EmptyString
  | String c rest => String (upper_char c) (toUpperCase rest)
  end.

(** The line feed written [\n] in the source. *)
Definition LF : string := String (ascii_of_nat 10) EmptyString.

(** [l.join(separator)] *)
Definition join (separator : string) (l : list string) : string :=
  String.concat separator l.

(** A [string | null | undefined] value that is truthy: present and not
    empty. *)
Definition truthy (v : option string) : option string :=
  match v with
  | Some (String c rest) => Some (String c rest)
  | _ => None
  end.

(** ** The OpenAI client ([ChatGPTClient.ts]) *)

Module OpenAI.
Record JsonSchemaFormat : Type := {
  name : string;
  schema : JsonSchema;
  strict : bool }.

Record ResponseFormat : Type := {
  type : string;
  json_schema : JsonSchemaFormat }.

Record ChatCompletionCreateParams : Type := {
  model : string;
  messages : list Message;
  response_format : ResponseFormat }.

Record ChatCompletionMessage : Type := {
  content : option string;
  refusal : option string }.

Record Choice : Type := {
  index : nat;
  message : option ChatCompletionMessage }.

Record ChatCompletion : Type := {
  id : string;
  choices : list Choice }.
End OpenAI.

Module ChatGPTClient.
Record t : Type := {
  apiKey : string;
  (* this.client.chat.completions.create *)
  create : OpenAI.ChatCompletionCreateParams -> Outcome OpenAI.ChatCompletion;
  model : string }.

Definition default_model : string := "gpt-4o-2024-08-06".

Definition openAIMessages (messages : list Message) : list Message :=
  map (fun msg => {| role := role msg; content := content msg |}) messages.

(** The argument of [create]. *)
Definition request (self : t) (messages : list Message)
  (config : StructuredOutputConfig) : OpenAI.ChatCompletionCreateParams :=
  {| OpenAI.model := model self;
     OpenAI.messages := openAIMessages messages;
     OpenAI.response_format :=
       {| OpenAI.type := "json_schema";
          OpenAI.json_schema :=
            {| OpenAI.name := schemaName config;
               OpenAI.schema := schema config;
               OpenAI.strict := true |} |} |}.

(** [completion.choices[0]?.message] *)
Definition first_message (completion : OpenAI.ChatCompletion)
  : option OpenAI.ChatCompletionMessage :=
  match nth_error (OpenAI.choices completion) 0 with
  | Some choice => OpenAI.message choice
  | None => None
  end.

Section Engine.
Variable syntaxErrorMessage : string -> string.

(** What follows the awaited [create]. *)
Definition decode_completion (completion : OpenAI.ChatCompletion)
  : Outcome (StructuredOutputResponse OpenAI.ChatCompletion) :=
  match first_message completion with
  | None => Throw (Error "No response from OpenAI")
  | Some message =>
      match truthy (OpenAI.refusal message) with
      | Some refusal => Throw (Error ("OpenAI refused to respond: " ++ refusal))
      | None =>
          match truthy (OpenAI.content message) with
          | None => Throw (Error "No content in OpenAI response")
          | Some content =>
              parsedJson <- JSON_parse syntaxErrorMessage content ;;
              Return (mkResponse parsedJson completion)
          end
      end
  end.

Definition chatWithStructuredOutput (self : t) (messages : list Message)
  (config : StructuredOutputConfig)
  : Outcome (StructuredOutputResponse OpenAI.ChatCompletion) :=
  completion <- create self (request self messages config) ;;
  decode_completion completion.
End Engine.
End ChatGPTClient.

(** ** The Gemini client ([GeminiClient.ts]) *)

Module Gemini.
Record GenerationConfig : Type := {
  responseMimeType : string;
  responseSchema : GeminiSchema }.

Record ModelParams : Type := {
  model : string;
  generationConfig : GenerationConfig }.

(** The answer of the service as the SDK hands it over.  A prompt the
    service declined has no candidate and a [promptFeedback.blockReason].
    Otherwise [candidateText] is what [response.text()] does with the
    candidates: their text (the empty text when there is none) or the SDK's
    exception for a candidate that was stopped. *)
Inductive EnhancedGenerateContentResponse : Type :=
| Candidates (candidateText : Outcome string)
| Blocked (blockReason : string).

(** The exception of [response.text()] for a blocked prompt. *)
Definition blocked (blockReason : string) : JsError :=
  SdkError "GoogleGenerativeAIResponseError"
    ("[GoogleGenerativeAI Error]: Text not available. Response was blocked due to "
     ++ blockReason).

(** [response.text()] *)
Definition text (response : EnhancedGenerateContentResponse) : Outcome string :=
  match response with
  | Candidates candidateText => candidateText
  | Blocked blockReason => Throw (blocked blockReason)
  end.

Record GenerateContentResult : Type := {
  response : EnhancedGenerateContentResponse }.
End Gemini.

Module GeminiClient.
Record t : Type := {
  apiKey : string;
  (* this.client.getGenerativeModel(params).generateContent *)
  generateContent :
    Gemini.ModelParams -> string -> Outcome Gemini.GenerateContentResult;
  modelName : string }.

Definition default_modelName : string := "gemini-2.0-flash-exp".

Definition modelParams (self : t) (responseSchema : GeminiSchema)
  : Gemini.ModelParams :=
  {| Gemini.model := modelName self;
     Gemini.generationConfig :=
       {| Gemini.responseMimeType := "application/json";
          Gemini.responseSchema := responseSchema |} |}.

(** [`${msg.role.toUpperCase()}: ${msg.content}`] *)
Definition line (msg : Message) : string :=
  toUpperCase (role_string (role msg)) ++ ": " ++ content msg.

Definition prompt (messages : list Message) : string :=
  join (LF ++ LF) (map line messages).

(** The arguments of [getGenerativeModel] and [generateContent], when the
    schema translates. *)
Definition request (self : t) (messages : list Message)
  (config : StructuredOutputConfig) : Outcome (Gemini.ModelParams * string) :=
  responseSchema <- jsonSchemaToGeminiSchema (schema config) ;;
  Return (modelParams self responseSchema, prompt messages).

Section Engine.
Variable syntaxErrorMessage : string -> string.

(** What follows the awaited [generateContent]. *)
Definition decode_result (result : Gemini.GenerateContentResult)
  : Outcome (StructuredOutputResponse Gemini.GenerateContentResult) :=
  text <- Gemini.text (Gemini.response result) ;;
  parsedData <-
    try_catch (JSON_parse syntaxErrorMessage text)
      (fun _ => Throw (Error ("Failed to parse Gemini JSON response: " ++ text))) ;;
  Return (mkResponse parsedData result).

Definition chatWithStructuredOutput (self : t) (messages : list Message)
  (config : StructuredOutputConfig)
  : Outcome (StructuredOutputResponse Gemini.GenerateContentResult) :=
  req <- request self messages config ;;
  result <- generateContent self (fst req) (snd req) ;;
  decode_result result.
End Engine.
End GeminiClient.

(** ** Vocabulary of the properties *)

(** The type names the translator has a case for. *)
Definition recognized (ty : TypeField) : bool :=
  type_is ty "object" || type_is ty "array" || is_primitive ty.

(** The node the translator reaches at a position: it goes down the
    properties of an [object] node and into the items of an [array] node. *)
Fixpoint node_at (p : Path) (s : JsonSchema) : option JsonSchema :=
  match p with
  | [] => Some s
  | Property key :: rest =>
      match type_is (type s) "object", properties s with
      | true, Some entries =>
          match obj_get entries key with
          | Some child => node_at rest child
          | None => None
          end
      | _, _ => None
      end
  | Items :: rest =>
      match type_is (type s) "object", properties s with
      | true, Some _ => None
      | _, _ =>
          match type_is (type s) "array", items s with
          | true, Some it => node_at rest it
          | _, _ => None
          end
      end
  | Alternative _ :: _ => None
  end.

(** The one numeric kind the translator writes for both numeric names. *)
Definition numeric (name : string) : string :=
  if String.eqb name "integer" then "number" else name.

Fixpoint collapse (sh : Shape) : Shape :=
  match sh with
  | ObjectShape props =>
      ObjectShape (map (fun kv => (fst kv, collapse (snd kv))) props)
  | ArrayShape it => ArrayShape (collapse it)
  | UnionShape alts => UnionShape (map collapse alts)
  | LeafShape t => LeafShape (numeric t)
  end.

(** A schema object with a [type] only. *)
Definition of_type (name : string) : JsonSchema :=
  mkJsonSchema (TypeName name) None None None None [].

Definition object_of (entries : Entries JsonSchema) (req : option (list string))
  : JsonSchema :=
  mkJsonSchema (TypeName "object") (Some entries) None req None [].

Definition array_of (it : JsonSchema) : JsonSchema :=
  mkJsonSchema (TypeName "array") None (Some it) None None [].

Definition any_of (ty : TypeField) (alts : list JsonSchema) : JsonSchema :=
  mkJsonSchema ty None None None (Some alts) [].

(** ** Induction over schema trees *)

Section Induction.
Variable P : JsonSchema -> Prop.
Hypothesis step :
  forall ty props its req alts kw,
    Forall (fun kv => P (snd kv)) (or_empty props) ->
    match its with Some it => P it | None => True end ->
    Forall P (or_empty alts) ->
    P (mkJsonSchema ty props its req alts kw).

Fixpoint JsonSchema_tree_ind (s : JsonSchema) : P s :=
  match s with
  | mkJsonSchema ty props its req alts kw =>
      @step ty props its req alts kw
        (match props as o
               return Forall (fun kv => P (snd kv)) (or_empty o) with
         | Some es =>
             (fix each (l : Entries JsonSchema)
                : Forall (fun kv => P (snd kv)) l :=
                match l with
                | [] => Forall_nil _
                | kv :: rest =>
                    @Forall_cons _ (fun kv => P (snd kv)) kv rest
                      (JsonSchema_tree_ind (snd kv)) (each rest)
                end) es
         | None => Forall_nil _
         end)
        (match its as o
               return match o with Some it => P it | None => True end with
         | Some it => JsonSchema_tree_ind it
         | None => I
         end)
        (match alts as o return Forall P (or_empty o) with
         | Some l =>
             (fix each (l : list JsonSchema) : Forall P l :=
                match l with
                | [] => Forall_nil _
                | a :: rest =>
                    @Forall_cons _ P a rest (JsonSchema_tree_ind a) (each rest)
                end) l
         | None => Forall_nil _
         end)
  end.
End Induction.

Section ShapeInduction.
Variable P : Shape -> Prop.
Hypothesis object_case :
  forall props, Forall (fun kv => P (snd kv)) props -> P (ObjectShape props).
Hypothesis array_case : forall it, P it -> P (ArrayShape it).
Hypothesis union_case : forall alts, Forall P alts -> P (UnionShape alts).
Hypothesis leaf_case : forall t, P (LeafShape t).

Fixpoint Shape_tree_ind (sh : Shape) : P sh :=
  match sh with
  | ObjectShape props =>
      object_case
        ((fix each (l : Entries Shape) : Forall (fun kv => P (snd kv)) l :=
            match l with
            | [] => Forall_nil _
            | kv :: rest =>
                @Forall_cons _ (fun kv => P (snd kv)) kv rest
                  (Shape_tree_ind (snd kv)) (each rest)
            end) props)
  | ArrayShape it => array_case (Shape_tree_ind it)
  | UnionShape alts =>
      union_case
        ((fix each (l : list Shape) : Forall P l :=
            match l with
            | [] => Forall_nil _
            | a :: rest => @Forall_cons _ P a rest (Shape_tree_ind a) (each rest)
            end) alts)
  | LeafShape t => leaf_case t
  end.
End ShapeInduction.

(** The pointwise relation between the entries of a source object and the
    entries of its translation. *)
Definition translated_entry (kv : string * JsonSchema)
  (kg : string * GeminiSchema) : Prop :=
  fst kg = fst kv /\ jsonSchemaToGeminiSchema (snd kv) = Return (snd kg).

(** ** Sample schemas and backends *)

(** [CVSchema] of [schemas.ts]. *)
Definition strict_object (entries : Entries JsonSchema) (req : list string)
  : JsonSchema :=
  mkJsonSchema (TypeName "object") (Some entries) None (Some req) None
    [("additionalProperties", JBool false)].

Definition CVSchema : JsonSchema :=
  strict_object
    [("name", of_type "string");
     ("email", of_type "string");
     ("phone", of_type "string");
     ("location", of_type "string");
     ("skills", array_of (of_type "string"));
     ("experience",
      array_of
        (strict_object
           [("title", of_type "string");
            ("company", of_type "string");
            ("period", of_type "string");
            ("description", of_type "string")]
           ["title"; "company"; "period"; "description"]));
     ("education",
      array_of
        (strict_object
           [("degree", of_type "string");
            ("institution", of_type "string");
            ("year", of_type "string")]
           ["degree"; "institution"; "year"]));
     ("yearsOfExperience", of_type "number")]
    ["name"; "email"; "phone"; "location"; "skills"; "experience";
     "education"; "yearsOfExperience"].

(** An object with a name and an integer age, both required. *)
Definition person_entries : Entries JsonSchema :=
  [("name", of_type "string"); ("age", of_type "integer")].

Definition person_schema : JsonSchema :=
  object_of person_entries (Some ["name"; "age"]).

Definition person_config : StructuredOutputConfig :=
  mkConfig person_schema "person" None.

Definition person_messages : list Message := [mkMessage user "Bob is 42"].

Definition string_or_number : JsonSchema :=
  any_of TypeAbsent [of_type "string"; of_type "number"].

Definition integers : JsonSchema := array_of (of_type "integer").

Definition with_null_property : JsonSchema :=
  object_of [("a", of_type "string"); ("b", of_type "null")] None.

Definition quote : string := String (ascii_of_nat 34) EmptyString.
Definition quoted (s : string) : string := quote ++ s ++ quote.

(** The text of the JSON document with the members name and age of Bob. *)
Definition bob_text : string :=
  "{" ++ quoted "name" ++ ":" ++ quoted "Bob" ++ "," ++ quoted "age" ++ ":42}".

Definition bob : Json := JObject [("name", JString "Bob"); ("age", JNumber 42 0)].

Definition completion_with (content refusal : option string)
  : OpenAI.ChatCompletion :=
  {| OpenAI.id := "chatcmpl-1";
     OpenAI.choices :=
       [{| OpenAI.index := 0;
           OpenAI.message :=
             Some {| OpenAI.content := content; OpenAI.refusal := refusal |} |}] |}.

Definition no_choices : OpenAI.ChatCompletion :=
  {| OpenAI.id := "chatcmpl-2"; OpenAI.choices := [] |}.

(** A client whose backend answers every request with [completion]. *)
Definition chatgpt_answering (completion : OpenAI.ChatCompletion)
  : ChatGPTClient.t :=
  {| ChatGPTClient.apiKey := "key";
     ChatGPTClient.create := fun _ => Return completion;
     ChatGPTClient.model := ChatGPTClient.default_model |}.

(** A result with the given candidate text, or, with a block reason, the
    result of a blocked prompt. *)
Definition gemini_result (text : Outcome string) (blockReason : option string)
  : Gemini.GenerateContentResult :=
  {| Gemini.response :=
       match blockReason with
       | Some reason => Gemini.Blocked reason
       | None => Gemini.Candidates text
       end |}.

Definition gemini_answering (result : Gemini.GenerateContentResult)
  : GeminiClient.t :=
  {| GeminiClient.apiKey := "key";
     GeminiClient.generateContent := fun _ _ => Return result;
     GeminiClient.modelName := GeminiClient.default_modelName |}.

(** [s.includes(sub)] *)
Fixpoint includes (sub s : string) : bool :=
  String.prefix sub s
  || match s with
     | EmptyString => false
     | String _ rest => includes sub rest
     end.

(** Bob's document cut off where the age is due. *)
Definition truncated_text : string :=
  "{" ++ quoted "name" ++ ":" ++ quoted "Bob" ++ "," ++ quoted "age" ++ ":".

(** The wording of an engine for a text that ends where a value is due. *)
Definition end_of_input_message (text : string) : string :=
  "Unexpected end of JSON input".

(** An object with an own property named [__proto__], as [JSON.parse]
    makes one. *)
Definition with_proto_entries : Entries JsonSchema :=
  [("__proto__", of_type "string"); ("a", of_type "boolean")].

Definition with_proto_property : JsonSchema := object_of with_proto_entries None.

(** An engine whose [SyntaxError] does not quote the text. *)
Definition terse_message (text : string) : string := "Unexpected token in JSON".

(** Two conversations with one and the same Gemini prompt. *)
Definition one_turn : list Message :=
  [mkMessage user ("hi" ++ LF ++ LF ++ "ASSISTANT: ok")].

Definition two_turns : list Message :=
  [mkMessage user "hi"; mkMessage assistant "ok"].


(** ** Vocabulary of further properties of the translator *)

(** The trees the translator has a case for all the way down: [object]
    nodes with [properties], [array] nodes with [items], and the four
    primitive type names. *)
Fixpoint supported (s : JsonSchema) : bool :=
  match s with
  | mkJsonSchema ty props its _ _ _ =>
      match type_is ty "object", props with
      | true, Some entries => forallb (fun kv => supported (snd kv)) entries
      | _, _ =>
          match type_is ty "array", its with
          | true, Some it => supported it
          | _, _ => is_primitive ty
          end
      end
  end.

(** No object node the translator reaches has a property named
    [__proto__]. *)
Fixpoint ordinary_names (s : JsonSchema) : bool :=
  match s with
  | mkJsonSchema ty props its _ _ _ =>
      match type_is ty "object", props with
      | true, Some entries =>
          negb (existsb (String.eqb "__proto__") (keys entries))
          && forallb (fun kv => ordinary_names (snd kv)) entries
      | _, _ =>
          match type_is ty "array", its with
          | true, Some it => ordinary_names it
          | _, _ => true
          end
      end
  end.

(** A schema without its [anyOf] and without any keyword other than [type],
    [properties], [items] and [required], at every node. *)
Fixpoint strip (s : JsonSchema) : JsonSchema :=
  match s with
  | mkJsonSchema ty props its req _ _ =>
      mkJsonSchema ty
        (option_map (map (fun kv => (fst kv, strip (snd kv)))) props)
        (option_map strip its)
        req None []
  end.

(** The members of [SchemaType] the translator writes at a leaf. *)
Definition leaf_kind (t : SchemaType.t) : bool :=
  match t with
  | SchemaType.STRING | SchemaType.NUMBER | SchemaType.BOOLEAN => true
  | _ => false
  end.

Fixpoint leaf_kinds_only (g : GeminiSchema) : bool :=
  match g with
  | ObjectSchema props _ => forallb (fun kg => leaf_kinds_only (snd kg)) props
  | ArraySchema it => leaf_kinds_only it
  | TypeSchema t => leaf_kind t
  end.

Fixpoint list_eqb (l1 l2 : list string) : bool :=
  match l1, l2 with
  | [], [] => true
  | x :: r1, y :: r2 => String.eqb x y && list_eqb r1 r2
  | _, _ => false
  end.

(** Strict mode: every property is required. *)
Definition all_required (names req : list string) : bool := list_eqb names req.

(** Every required name is a property. *)
Definition required_declared (names req : list string) : bool :=
  forallb (fun r => existsb (String.eqb r) names) req.

Section Objects.
Variable R : list string -> list string -> bool.

(** [R] relates the property names and the required list ([[]] when
    absent) of every object node the translator reaches. *)
Fixpoint source_objects (s : JsonSchema) : bool :=
  match s with
  | mkJsonSchema ty props its req _ _ =>
      match type_is ty "object", props with
      | true, Some entries =>
          distinct (keys entries)
          && R (keys entries) (or_empty req)
          && forallb (fun kv => source_objects (snd kv)) entries
      | _, _ =>
          match type_is ty "array", its with
          | true, Some it => source_objects it
          | _, _ => true
          end
      end
  end.

Fixpoint target_objects (g : GeminiSchema) : bool :=
  match g with
  | ObjectSchema props req =>
      R (keys props) req && forallb (fun kg => target_objects (snd kg)) props
  | ArraySchema it => target_objects it
  | TypeSchema _ => true
  end.
End Objects.

Definition untyped_object : JsonSchema := of_type "object".

(** ** Vocabulary of further properties of the clients *)

(** The outcome of a call without the raw response. *)
Definition outcome_data {Raw : Type}
  (o : Outcome (StructuredOutputResponse Raw)) : Outcome Json :=
  match o with
  | Return r => Return (data r)
  | Throw e => Throw e
  end.

(** A backend that is down. *)
Definition connection_refused : JsError := SdkError "APIConnectionError" "Connection error.".

Definition chatgpt_failing (e : JsError) : ChatGPTClient.t :=
  {| ChatGPTClient.apiKey := "key";
     ChatGPTClient.create := fun _ => Throw e;
     ChatGPTClient.model := ChatGPTClient.default_model |}.

Definition gemini_failing (e : JsError) : GeminiClient.t :=
  {| GeminiClient.apiKey := "key";
     GeminiClient.generateContent := fun _ _ => Throw e;
     GeminiClient.modelName := GeminiClient.default_modelName |}.

Definition union_config : StructuredOutputConfig :=
  mkConfig string_or_number "either" None.

(** ** The sample program ([index.ts]) *)

From Stdlib Require DecimalString.

Module Demo.

(** [sampleCVText], line by line. *)
Definition sampleCVText : string :=
  join LF
    ["";
     "JOHN DOE";
     "Email: john.doe@email.com | Phone: +1-555-0100 | Location: San Francisco, CA";
     "";
     "PROFESSIONAL SUMMARY";
     "Senior Full Stack Developer with 8 years of experience building scalable web applications.";
     "Expert in modern JavaScript frameworks and cloud technologies.";
     "";
     "SKILLS";
     "- Programming Languages: JavaScript, TypeScript, Python, Go";
     "- Frontend: React, Next.js, Vue.js, TailwindCSS";
     "- Backend: Node.js, Express, Django, FastAPI";
     "- Cloud & DevOps: AWS, Docker, Kubernetes, CI/CD";
     "- Databases: PostgreSQL, MongoDB, Redis";
     "";
     "WORK EXPERIENCE";
     "";
     "Senior Software Engineer | Google Inc. | 2020 - Present";
     "- Led development of cloud-native microservices handling 10M+ daily requests";
     "- Architected and implemented real-time data processing pipelines using Kafka";
     "- Mentored team of 5 junior developers";
     "";
     "Software Engineer | Facebook (Meta) | 2018 - 2020";
     "- Developed React-based dashboard for internal analytics platform";
     "- Improved application performance by 40% through code optimization";
     "- Collaborated with cross-functional teams on product features";
     "";
     "Full Stack Developer | Startup Inc. | 2016 - 2018";
     "- Built RESTful APIs using Node.js and Express";
     "- Implemented responsive UI components with React";
     "- Deployed applications on AWS using Docker containers";
     "";
     "EDUCATION";
     "";
     "Master of Science in Computer Science | Stanford University | 2016";
     "Focus: Distributed Systems and Machine Learning";
     "";
     "Bachelor of Science in Computer Engineering | UC Berkeley | 2014";
     "GPA: 3.8/4.0";
     ""].

(** A call of [console.log] or [console.error]. *)
Inductive ConsoleCall : Type :=
| console_log (text : string)
| console_error (text : string)
| console_error_with (label : string) (error : JsError).

(** What the program finds around it: [process.env], the successive
    readings of [Date.now()], [JSON.stringify(value, null, 2)], the wording
    of the engine's [SyntaxError], and the two SDK clients made with an API
    key. *)
Record Runtime : Type := {
  env : string -> option string;
  Date_now : nat -> Z;
  JSON_stringify : Json -> string;
  syntaxErrorMessage : string -> string;
  OpenAI_create :
    string -> OpenAI.ChatCompletionCreateParams -> Outcome OpenAI.ChatCompletion;
  Google_generateContent :
    string -> Gemini.ModelParams -> string -> Outcome Gemini.GenerateContentResult }.

(** The console so far and the number of clock readings made. *)
Record State : Type := {
  console : list ConsoleCall;
  readings : nat }.

Definition start : State := {| console := []; readings := 0 |}.

Definition say (call : ConsoleCall) (st : State) : State :=
  {| console := console st ++ [call]; readings := readings st |}.

Definition tick (st : State) : State :=
  {| console := console st; readings := S (readings st) |}.

(** [`${n}`] for an integer. *)
Definition number_string (n : Z) : string :=
  DecimalString.NilZero.string_of_int (Z.to_int n).

(** [new ChatGPTClient(apiKey, model)], [model] defaulted. *)
Definition new_ChatGPTClient (rt : Runtime) (apiKey : string)
  (model : option string) : ChatGPTClient.t :=
  {| ChatGPTClient.apiKey := apiKey;
     ChatGPTClient.create := OpenAI_create rt apiKey;
     ChatGPTClient.model :=
       match model with
       | Some m => m
       | None => ChatGPTClient.default_model
       end |}.

(** [new GeminiClient(apiKey, modelName)], [modelName] defaulted. *)
Definition new_GeminiClient (rt : Runtime) (apiKey : string)
  (modelName : option string) : GeminiClient.t :=
  {| GeminiClient.apiKey := apiKey;
     GeminiClient.generateContent := Google_generateContent rt apiKey;
     GeminiClient.modelName :=
       match modelName with
       | Some m => m
       | None => GeminiClient.default_modelName
       end |}.

Definition messages : list Message :=
  [mkMessage system
     "You are an expert at extracting structured information from resumes/CVs. Extract all relevant information and structure it according to the provided schema.";
   mkMessage user
     ("Extract structured information from this CV:" ++ LF ++ LF ++ sampleCVText)].

Definition config : StructuredOutputConfig :=
  mkConfig CVSchema "cv_extraction"
    (Some "Structured CV information extracted from resume text").

(** The body of the [try] block and its [catch], for a call that has
    come back: the three lines of a success after a second reading of the
    clock, or the exception on the error console. *)
Definition report {Raw : Type} (rt : Runtime) (st : State) (startTime : Z)
  (outcome : Outcome (StructuredOutputResponse Raw)) : State :=
  match outcome with
  | Return response =>
      let elapsed := (Date_now rt (readings st) - startTime)%Z in
      say (console_log (LF ++ "Response time: " ++ number_string elapsed ++ "ms"))
        (say (console_log (JSON_stringify rt (data response)))
           (say (console_log "Extracted CV Data:") (tick st)))
  | Throw error => say (console_error_with "Error:" error) st
  end.

Definition testChatGPT (rt : Runtime) (st : State) : State :=
  let st :=
    say (console_log
           (LF ++ "=== Testing OpenAI ChatGPT Structured Output ===" ++ LF)) st in
  match truthy (env rt "OPENAI_API_KEY") with
  | None =>
      say (console_error "OPENAI_API_KEY not found in environment variables") st
  | Some apiKey =>
      let client := new_ChatGPTClient rt apiKey None in
      let startTime := Date_now rt (readings st) in
      report rt (tick st) startTime
        (ChatGPTClient.chatWithStructuredOutput (syntaxErrorMessage rt) client
           messages config)
  end.

Definition testGemini (rt : Runtime) (st : State) : State :=
  let st :=
    say (console_log
           (LF ++ "=== Testing Google Gemini Structured Output ===" ++ LF)) st in
  match truthy (env rt "GOOGLE_AI_API_KEY") with
  | None =>
      say (console_error "GOOGLE_AI_API_KEY not found in environment variables") st
  | Some apiKey =>
      let client := new_GeminiClient rt apiKey None in
      let startTime := Date_now rt (readings st) in
      report rt (tick st) startTime
        (GeminiClient.chatWithStructuredOutput (syntaxErrorMessage rt) client
           messages config)
  end.

Definition main (rt : Runtime) : State :=
  let st :=
    say (console_log
           ("POC: Structured Output Comparison - OpenAI vs Gemini" ++ LF)) start in
  let st := testChatGPT rt st in
  let st := testGemini rt st in
  say (console_log (LF ++ "=== Test Complete ===" ++ LF)) st.

(** A machine without keys, and one with both keys whose backends are
    down. *)
Definition no_keys : Runtime :=
  {| env := fun _ => None;
     Date_now := fun n => Z.of_nat n;
     JSON_stringify := fun _ => "{}";
     syntaxErrorMessage := terse_message;
     OpenAI_create := fun _ _ => Throw connection_refused;
     Google_generateContent := fun _ _ _ => Throw connection_refused |}.





End Demo.

(** * Properties of the translator *)

(** The translator, one node at a time. *)
Lemma jsonSchemaToGeminiSchema_eq (s : JsonSchema) :
  jsonSchemaToGeminiSchema s =
  match type_is (type s) "object", properties s with
  | true, Some entries =>
      props <- translate_entries entries [] ;;
      Return (ObjectSchema props (or_empty (required s)))
  | _, _ =>
      match type_is (type s) "array", items s with
      | true, Some it =>
          translated <- jsonSchemaToGeminiSchema it ;;
          Return (ArraySchema translated)
      | _, _ =>
          if type_is (type s) "string" then Return (TypeSchema SchemaType.STRING)
          else if type_is (type s) "number" || type_is (type s) "integer"
               then Return (TypeSchema SchemaType.NUMBER)
          else if type_is (type s) "boolean"
               then Return (TypeSchema SchemaType.BOOLEAN)
          else Throw (Error (unsupported_prefix ++ type_to_string (type s)))
      end
  end.
Proof.
  destruct s as [ty props its req alts kw]; simpl.
  destruct (type_is ty "object"); [destruct props as [entries|]|]; reflexivity.
Qed.

Lemma existsb_eqb_In (x : string) (l : list string) :
  existsb (String.eqb x) l = true <-> In x l.
Proof.
  rewrite existsb_exists; split.
  - intros [y [Hy Heq]]. apply String.eqb_eq in Heq. now subst.
  - intros H. exists x. split; [assumption | apply String.eqb_refl].
Qed.

Lemma distinct_NoDup (l : list string) : distinct l = true <-> NoDup l.
Proof.
  induction l as [|x l IH]; simpl.
  - split; [constructor | reflexivity].
  - rewrite andb_true_iff, negb_true_iff, IH. split.
    + intros [Hx Hl]. constructor; [|assumption].
      intros Hin. apply existsb_eqb_In in Hin. congruence.
    + intros H. inversion H as [|? ? Hx Hl]; subst. split; [|assumption].
      destruct (existsb (String.eqb x) l) eqn:E; [|reflexivity].
      apply existsb_eqb_In in E. contradiction.
Qed.

Lemma obj_define_fresh {T : Type} (o : Entries T) (key : string) (value : T) :
  ~ In key (keys o) -> obj_define o key value = o ++ [(key, value)].
Proof.
  induction o as [|[k v] o IH]; simpl; intros Hnot; [reflexivity|].
  destruct (String.eqb k key) eqn:E.
  - apply String.eqb_eq in E. subst. exfalso. apply Hnot. now left.
  - rewrite IH; [reflexivity|]. intros Hin. apply Hnot. now right.
Qed.

Lemma obj_set_fresh {T : Type} (o : Entries T) (key : string) (value : T) :
  ~ In key (keys o) -> obj_set o key value = o ++ own_entries [(key, value)].
Proof.
  intros Hnot. unfold obj_set, own_entries. simpl.
  destruct (String.eqb key "__proto__"); simpl.
  - now rewrite app_nil_r.
  - now apply obj_define_fresh.
Qed.

Lemma own_entries_app {T : Type} (a b : Entries T) :
  own_entries (a ++ b) = own_entries a ++ own_entries b.
Proof. apply filter_app. Qed.

Lemma own_entries_ordinary {T : Type} (o : Entries T) :
  existsb (String.eqb "__proto__") (keys o) = false -> own_entries o = o.
Proof.
  unfold own_entries, keys.
  induction o as [|[k v] o IH]; [reflexivity|].
  cbn [map fst existsb filter]. intros H. apply orb_false_iff in H as [Hk Ho].
  rewrite String.eqb_sym, Hk. cbn [negb]. f_equal. now apply IH.
Qed.

Lemma obj_get_own_entries {T : Type} (o : Entries T) (key : string) :
  obj_get (own_entries o) key
  = if String.eqb key "__proto__" then None else obj_get o key.
Proof.
  unfold own_entries.
  induction o as [|[k v] o IH]; cbn [filter obj_get fst].
  - now destruct (String.eqb key "__proto__").
  - destruct (String.eqb k "__proto__") eqn:Ek; cbn [negb obj_get].
    + rewrite IH. destruct (String.eqb key "__proto__") eqn:Ekey; [reflexivity|].
      destruct (String.eqb k key) eqn:E; [|reflexivity].
      apply String.eqb_eq in E. subst. congruence.
    + rewrite IH. destruct (String.eqb k key) eqn:E; [|reflexivity].
      apply String.eqb_eq in E. subst. now rewrite Ek.
Qed.

(** The loop stores the translated entries in order, but for an entry
    named [__proto__]. *)
Lemma translate_entries_returns (es : Entries JsonSchema) :
  forall acc props,
    NoDup (keys acc ++ keys es) ->
    Forall2 translated_entry es props ->
    translate_entries es acc = Return (acc ++ own_entries props).
Proof.
  induction es as [|[k v] es IH]; intros acc props Hnd H2.
  - inversion H2; subst. simpl. now rewrite app_nil_r.
  - inversion H2 as [|? [k' g] ? ps' [Hk Hv] Hrest]; subst.
    simpl in Hk, Hv. subst k'. simpl translate_entries. rewrite Hv. simpl bind.
    rewrite obj_set_fresh.
    + rewrite (IH (acc ++ own_entries [(k, g)]) ps').
      * rewrite <- app_assoc, <- own_entries_app. reflexivity.
      * simpl in Hnd. unfold keys in *. rewrite map_app, <- app_assoc.
        unfold own_entries. simpl.
        destruct (String.eqb k "__proto__"); simpl; [|exact Hnd].
        now apply NoDup_remove_1 in Hnd.
      * exact Hrest.
    + simpl in Hnd. apply NoDup_remove_2 in Hnd.
      intros Hin. apply Hnd. apply in_or_app. now left.
Qed.

Lemma translate_entries_throws (pre : Entries JsonSchema) :
  forall acc kv post e,
    Forall (fun x => returns (jsonSchemaToGeminiSchema (snd x)) = true) pre ->
    jsonSchemaToGeminiSchema (snd kv) = Throw e ->
    translate_entries (pre ++ kv :: post) acc = Throw e.
Proof.
  induction pre as [|[k v] pre IH]; intros acc [k' v'] post e Hpre Hthrow.
  - simpl in *. now rewrite Hthrow.
  - inversion Hpre as [|? ? Hv Hrest]; subst. simpl in Hv. simpl.
    destruct (jsonSchemaToGeminiSchema v) as [g|e0]; [|discriminate]. simpl.
    now apply IH.
Qed.

Lemma translate_entries_total (es : Entries JsonSchema) :
  Forall (fun x => returns (jsonSchemaToGeminiSchema (snd x)) = true) es ->
  exists props, Forall2 translated_entry es props.
Proof.
  induction 1 as [|[k v] es Hv _ [props IH]].
  - exists []. constructor.
  - simpl in Hv. destruct (jsonSchemaToGeminiSchema v) as [g|e] eqn:E; [|discriminate].
    exists ((k, g) :: props). constructor; [|assumption]. now split.
Qed.

Lemma translate_entries_throw_inv (es : Entries JsonSchema) :
  forall acc e,
    translate_entries es acc = Throw e ->
    exists kv, In kv es /\ jsonSchemaToGeminiSchema (snd kv) = Throw e.
Proof.
  induction es as [|[k v] es IH]; intros acc e H; simpl in H; [discriminate|].
  destruct (jsonSchemaToGeminiSchema v) as [g|e0] eqn:E; simpl in H.
  - destruct (IH _ _ H) as [kv [Hin Hkv]]. exists kv. split; [now right | assumption].
  - injection H as ->. exists (k, v). split; [now left | assumption].
Qed.

Lemma translate_entries_In_throws (es : Entries JsonSchema) :
  forall acc kv,
    In kv es -> returns (jsonSchemaToGeminiSchema (snd kv)) = false ->
    returns (translate_entries es acc) = false.
Proof.
  induction es as [|[k v] es IH]; intros acc kv Hin Hkv; [contradiction|].
  simpl. destruct Hin as [<- | Hin].
  - simpl in Hkv. destruct (jsonSchemaToGeminiSchema v); [discriminate | reflexivity].
  - destruct (jsonSchemaToGeminiSchema v); simpl; [|reflexivity]. now apply IH with kv.
Qed.

Lemma obj_get_In {T : Type} (o : Entries T) (key : string) (v : T) :
  obj_get o key = Some v -> In (key, v) o.
Proof.
  induction o as [|[k w] o IH]; simpl; [discriminate|].
  destruct (String.eqb k key) eqn:E.
  - apply String.eqb_eq in E. intros [= ->]. subst. now left.
  - intros H. right. now apply IH.
Qed.

(** Every exception of the translator is the one of its last line, for some
    [type] field. *)
Lemma translator_throws_unsupported (s : JsonSchema) :
  forall e,
    jsonSchemaToGeminiSchema s = Throw e ->
    exists ty, e = Error (unsupported_prefix ++ type_to_string ty).
Proof.
  induction s as [ty props its req alts kw IHprops IHits _] using JsonSchema_tree_ind.
  intros e. rewrite jsonSchemaToGeminiSchema_eq. simpl.
  assert (Hrest :
    (if type_is ty "string" then Return (TypeSchema SchemaType.STRING)
     else if type_is ty "number" || type_is ty "integer"
          then Return (TypeSchema SchemaType.NUMBER)
     else if type_is ty "boolean" then Return (TypeSchema SchemaType.BOOLEAN)
     else Throw (Error (unsupported_prefix ++ type_to_string ty))) = Throw e ->
    exists ty0, e = Error (unsupported_prefix ++ type_to_string ty0)).
  { destruct (type_is ty "string"); [discriminate|].
    destruct (type_is ty "number" || type_is ty "integer"); [discriminate|].
    destruct (type_is ty "boolean"); [discriminate|].
    intros [= <-]. now exists ty. }
  assert (Harr :
    match type_is ty "array", its with
    | true, Some it =>
        translated <- jsonSchemaToGeminiSchema it ;; Return (ArraySchema translated)
    | _, _ =>
        if type_is ty "string" then Return (TypeSchema SchemaType.STRING)
        else if type_is ty "number" || type_is ty "integer"
             then Return (TypeSchema SchemaType.NUMBER)
        else if type_is ty "boolean" then Return (TypeSchema SchemaType.BOOLEAN)
        else Throw (Error (unsupported_prefix ++ type_to_string ty))
    end = Throw e ->
    exists ty0, e = Error (unsupported_prefix ++ type_to_string ty0)).
  { destruct (type_is ty "array"); [|exact Hrest].
    destruct its as [it|]; [|exact Hrest].
    destruct (jsonSchemaToGeminiSchema it) as [g|e0] eqn:E; simpl; [discriminate|].
    intros [= <-]. now apply IHits. }
  destruct (type_is ty "object"); [|exact Harr].
  destruct props as [entries|]; [|exact Harr].
  destruct (translate_entries entries []) as [ps|e0] eqn:E; simpl; [discriminate|].
  intros [= <-]. apply translate_entries_throw_inv in E as [kv [Hin Hkv]].
  simpl in IHprops. rewrite Forall_forall in IHprops. now apply (IHprops kv).
Qed.

Lemma reached_node_throws (p : Path) :
  forall s bad,
    node_at p s = Some bad ->
    returns (jsonSchemaToGeminiSchema bad) = false ->
    returns (jsonSchemaToGeminiSchema s) = false.
Proof.
  induction p as [|step p IH]; intros s bad Hat Hbad.
  - simpl in Hat. now injection Hat as ->.
  - rewrite jsonSchemaToGeminiSchema_eq. destruct step as [key| |i]; simpl in Hat.
    + destruct (type_is (type s) "object"); [|discriminate].
      destruct (properties s) as [entries|]; [|discriminate].
      destruct (obj_get entries key) as [child|] eqn:G; [|discriminate].
      apply obj_get_In in G.
      pose proof (@translate_entries_In_throws entries [] (key, child) G
                    (IH _ _ Hat Hbad)) as H.
      destruct (translate_entries entries []); [discriminate | reflexivity].
    + destruct (type_is (type s) "object").
      * destruct (properties s); [discriminate|].
        destruct (type_is (type s) "array"); [|discriminate].
        destruct (items s) as [it|]; [|discriminate].
        pose proof (IH _ _ Hat Hbad) as H.
        destruct (jsonSchemaToGeminiSchema it); [discriminate | reflexivity].
      * destruct (type_is (type s) "array"); [|discriminate].
        destruct (items s) as [it|]; [|discriminate].
        pose proof (IH _ _ Hat Hbad) as H.
        destruct (jsonSchemaToGeminiSchema it); [discriminate | reflexivity].
    + discriminate.
Qed.

Lemma unrecognized_node_throws (s : JsonSchema) :
  recognized (type s) = false ->
  jsonSchemaToGeminiSchema s =
  Throw (Error (unsupported_prefix ++ type_to_string (type s))).
Proof.
  unfold recognized, is_primitive. intros H.
  rewrite jsonSchemaToGeminiSchema_eq.
  destruct (type_is (type s) "object"); [discriminate|].
  destruct (type_is (type s) "array"); [discriminate|].
  destruct (type_is (type s) "string"); [discriminate|].
  destruct (type_is (type s) "number"); [discriminate|].
  destruct (type_is (type s) "integer"); [discriminate|].
  destruct (type_is (type s) "boolean"); [discriminate|].
  reflexivity.
Qed.

(** C3.  A node whose [type] is none of the names the translator has a case
    for stops the translation: translating the node throws
    [Error("Unsupported JSON Schema type: <type>")] with the node's own type
    in the message, and translating any tree in which the translator reaches
    the node throws an exception of that form too, so that no tree, whole or
    partial, is returned. *)
Theorem unsupported_type_is_rejected (s bad : JsonSchema) (p : Path) :
  node_at p s = Some bad ->
  recognized (type bad) = false ->
  jsonSchemaToGeminiSchema bad =
    Throw (Error (unsupported_prefix ++ type_to_string (type bad)))
  /\ exists ty, jsonSchemaToGeminiSchema s =
                Throw (Error (unsupported_prefix ++ type_to_string ty)).
Proof.
  intros Hat Hbad. pose proof (@unrecognized_node_throws bad Hbad) as Hthrow.
  split; [exact Hthrow|].
  assert (Hs : returns (jsonSchemaToGeminiSchema s) = false).
  { apply reached_node_throws with (p := p) (bad := bad); [exact Hat|].
    now rewrite Hthrow. }
  destruct (jsonSchemaToGeminiSchema s) as [g|e] eqn:E; [discriminate|].
  destruct (@translator_throws_unsupported s e E) as [ty ->]. now exists ty.
Qed.

(** C2 (as the code has it).  A node whose [type] is ["number"] or
    ["integer"] is translated to [{ type: SchemaType.NUMBER }] in both cases:
    the two numeric names are collapsed into the one kind [NUMBER], although
    ["integer"] is a type name of the Gemini dialect ([GeminiSchemaType])
    distinct from ["number"]. *)
Theorem numeric_types_collapse_to_NUMBER (s : JsonSchema) :
  type_is (type s) "number" || type_is (type s) "integer" = true ->
  jsonSchemaToGeminiSchema s = Return (TypeSchema SchemaType.NUMBER)
  /\ In "integer" GeminiSchemaType
  /\ In "number" GeminiSchemaType
  /\ SchemaType.value SchemaType.INTEGER = "integer"
  /\ SchemaType.value SchemaType.INTEGER <> SchemaType.value SchemaType.NUMBER.
Proof.
  intros H. split.
  - rewrite jsonSchemaToGeminiSchema_eq.
    assert (Ho : type_is (type s) "object" = false
                 /\ type_is (type s) "array" = false
                 /\ type_is (type s) "string" = false).
    { unfold type_is in *. destruct (type s) as [|n|ns]; try discriminate.
      apply orb_true_iff in H.
      destruct H as [H|H]; apply String.eqb_eq in H; subst n; repeat split. }
    destruct Ho as (-> & -> & ->). now rewrite H.
  - repeat split; simpl; try tauto. discriminate.
Qed.

(** C4.  An [object] node with [properties] is translated to
    [{ type: OBJECT, properties, required }]: when [props] holds, entry by
    entry and in the order of the source entries, the same key with the
    translation of the source value, the result holds these entries in that
    order, with the source's [required] list, or the empty list when the
    source has none; and when a property value fails to translate, the
    exception of the first such value is the outcome.  One entry is missed:
    a property named [__proto__] is translated and then not stored, so that
    the result lacks it. *)
Theorem object_node_translation
  (ty : TypeField) (entries : Entries JsonSchema) (its : option JsonSchema)
  (req : option (list string)) (alts : option (list JsonSchema))
  (kw : Entries Json) :
  type_is ty "object" = true ->
  distinct (keys entries) = true ->
  let node := mkJsonSchema ty (Some entries) its req alts kw in
  (Forall (fun kv => returns (jsonSchemaToGeminiSchema (snd kv)) = true) entries ->
   exists props, Forall2 translated_entry entries props)
  /\ (forall props,
        Forall2 translated_entry entries props ->
        keys props = keys entries
        /\ jsonSchemaToGeminiSchema node =
           Return (ObjectSchema (own_entries props)
                     match req with Some r => r | None => [] end)
        /\ (existsb (String.eqb "__proto__") (keys entries) = false ->
            own_entries props = props)
        /\ obj_get (own_entries props) "__proto__" = None)
  /\ (forall pre kv post e,
        entries = pre ++ kv :: post ->
        Forall (fun x => returns (jsonSchemaToGeminiSchema (snd x)) = true) pre ->
        jsonSchemaToGeminiSchema (snd kv) = Throw e ->
        jsonSchemaToGeminiSchema node = Throw e).
Proof.
  intros Hty Hdistinct node. split; [apply translate_entries_total|]. split.
  - intros props H2.
    assert (Hkeys : keys props = keys entries).
    { clear - H2. induction H2 as [|kv kg es ps [Hk _] _ IH]; simpl; [reflexivity|].
      now rewrite Hk, IH. }
    split; [exact Hkeys|]. split; [|split].
    + subst node. rewrite jsonSchemaToGeminiSchema_eq. simpl. rewrite Hty.
      rewrite (@translate_entries_returns entries [] props).
      * reflexivity.
      * simpl. now apply distinct_NoDup.
      * exact H2.
    + intros Hnone. apply own_entries_ordinary. now rewrite Hkeys.
    + now rewrite obj_get_own_entries.
  - intros pre kv post e -> Hpre Hthrow.
    subst node. rewrite jsonSchemaToGeminiSchema_eq. simpl. rewrite Hty.
    now rewrite (@translate_entries_throws pre [] kv post e Hpre Hthrow).
Qed.

(** ** Shapes *)

Lemma obj_get_map {A B : Type} (f : A -> B) (o : Entries A) (key : string) :
  obj_get (map (fun kv => (fst kv, f (snd kv))) o) key
  = option_map f (obj_get o key).
Proof.
  induction o as [|[k v] o IH]; simpl; [reflexivity|].
  destruct (String.eqb k key); [reflexivity | exact IH].
Qed.

Lemma at_path_collapse (p : Path) :
  forall sh, at_path p (collapse sh) = option_map collapse (at_path p sh).
Proof.
  induction p as [|step p IH]; intros sh; [reflexivity|].
  destruct step as [key| |i], sh as [props|it|alts|t]; simpl; try reflexivity.
  - rewrite obj_get_map. destruct (obj_get props key); simpl; [apply IH | reflexivity].
  - apply IH.
  - rewrite nth_error_map. destruct (nth_error alts i); simpl; [apply IH | reflexivity].
Qed.

Lemma names_at_collapse (p : Path) (sh : Shape) :
  names_at p (collapse sh) = names_at p sh.
Proof.
  unfold names_at. rewrite at_path_collapse.
  destruct (at_path p sh) as [[props|it|alts|t]|]; simpl; try reflexivity.
  unfold keys. rewrite map_map. reflexivity.
Qed.

Lemma item_type_at_collapse (p : Path) (sh : Shape) :
  item_type_at p (collapse sh) = option_map numeric (item_type_at p sh).
Proof.
  unfold item_type_at. rewrite at_path_collapse.
  destruct (at_path p sh) as [[props|it|alts|t]|]; simpl; try reflexivity.
  destruct it; reflexivity.
Qed.

Lemma depth_collapse (sh : Shape) : depth (collapse sh) = depth sh.
Proof.
  induction sh as [props IH|it IH|alts IH|t] using Shape_tree_ind; simpl.
  - f_equal. f_equal. rewrite map_map. simpl.
    induction IH as [|kv l Hkv _ IHl]; simpl; [reflexivity|]. now rewrite Hkv, IHl.
  - now rewrite IH.
  - f_equal. f_equal. rewrite map_map.
    induction IH as [|a l Ha _ IHl]; simpl; [reflexivity|]. now rewrite Ha, IHl.
  - reflexivity.
Qed.

Lemma is_primitive_leaf (ty : TypeField) :
  is_primitive ty = true ->
  type_is ty "object" = false /\ type_is ty "array" = false /\
  exists t,
    (if type_is ty "string" then Return (TypeSchema SchemaType.STRING)
     else if type_is ty "number" || type_is ty "integer"
          then Return (TypeSchema SchemaType.NUMBER)
     else if type_is ty "boolean" then Return (TypeSchema SchemaType.BOOLEAN)
     else Throw (Error (unsupported_prefix ++ type_to_string ty)))
    = Return (TypeSchema t)
    /\ SchemaType.value t = numeric (type_to_string ty).
Proof.
  unfold is_primitive, type_is. destruct ty as [|n|ns]; try discriminate.
  intros H. repeat (apply orb_true_iff in H; destruct H as [H|H]);
    apply String.eqb_eq in H; subst n; simpl; repeat split; eexists; split;
    reflexivity.
Qed.

(** A tree without union nodes and without a property named [__proto__]
    translates, and an inspection of the result shows the shape of the
    source with both numeric names read as ["number"]. *)
Lemma union_free_shape (s : JsonSchema) :
  union_free s = true ->
  ordinary_names s = true ->
  exists g, jsonSchemaToGeminiSchema s = Return g
            /\ target_shape g = collapse (source_shape s).
Proof.
  unfold union_free.
  induction s as [ty props its req alts kw IHprops IHits _] using JsonSchema_tree_ind.
  intros Hfree Hord. rewrite jsonSchemaToGeminiSchema_eq. simpl in *.
  assert (Hleaf :
    match alts with
    | Some l => false && forallb (built_from false) l
    | None => is_primitive ty
    end = true ->
    type_is ty "object" = false /\ type_is ty "array" = false /\ alts = None /\
    exists t,
      (if type_is ty "string" then Return (TypeSchema SchemaType.STRING)
       else if type_is ty "number" || type_is ty "integer"
            then Return (TypeSchema SchemaType.NUMBER)
       else if type_is ty "boolean" then Return (TypeSchema SchemaType.BOOLEAN)
       else Throw (Error (unsupported_prefix ++ type_to_string ty)))
      = Return (TypeSchema t)
      /\ SchemaType.value t = numeric (type_to_string ty)).
  { destruct alts; [discriminate|]. intros H.
    destruct (is_primitive_leaf ty H) as (Ho & Ha & t & Ht). repeat split; eauto. }
  destruct (type_is ty "object") eqn:Eo.
  - destruct props as [entries|].
    + apply andb_true_iff in Hfree as [Hd Hall].
      apply andb_true_iff in Hord as [Hnone Hordall].
      apply negb_true_iff in Hnone.
      assert (Hex : exists props,
                 Forall2 translated_entry entries props
                 /\ map (fun kg => (fst kg, target_shape (snd kg))) props
                    = map (fun kv => (fst kv, collapse (source_shape (snd kv))))
                        entries).
      { clear Hd Hnone. induction entries as [|[k v] es IHes].
        - exists []. split; constructor.
        - cbn [forallb snd] in Hall, Hordall.
          apply andb_true_iff in Hall as [Hv Hes].
          apply andb_true_iff in Hordall as [Hov Hoes].
          inversion IHprops as [|? ? Hhead Htail]; subst. simpl in Hhead.
          destruct (Hhead Hv Hov) as [g [Hg Hshape]].
          destruct (IHes Htail Hes Hoes) as [ps [H2 Hmap]].
          exists ((k, g) :: ps). split.
          + constructor; [now split | exact H2].
          + simpl. now rewrite Hshape, Hmap. }
      destruct Hex as [ps [H2 Hmap]].
      rewrite (@translate_entries_returns entries [] ps);
        [|now apply distinct_NoDup | exact H2].
      rewrite own_entries_ordinary.
      * eexists. split; [reflexivity|]. simpl. rewrite Hmap, map_map. reflexivity.
      * assert (Hkeys : keys ps = keys entries).
        { clear - H2. induction H2 as [|kv kg es qs [Hk _] _ IH]; simpl;
            [reflexivity | now rewrite Hk, IH]. }
        now rewrite Hkeys.
    + destruct (type_is ty "array") eqn:Ea.
      * destruct its as [it|].
        -- destruct (IHits Hfree Hord) as [g [Hg Hshape]]. rewrite Hg. simpl.
           eexists. split; [reflexivity|]. simpl. now rewrite Hshape.
        -- destruct (Hleaf Hfree) as (? & ? & _); discriminate.
      * destruct (Hleaf Hfree) as (? & _); discriminate.
  - destruct (type_is ty "array") eqn:Ea.
    + destruct its as [it|].
      * destruct (IHits Hfree Hord) as [g [Hg Hshape]]. rewrite Hg. simpl.
        eexists. split; [reflexivity|]. simpl. now rewrite Hshape.
      * destruct (Hleaf Hfree) as (_ & ? & _); discriminate.
    + destruct (Hleaf Hfree) as (_ & _ & -> & t & Ht & Hval).
      simpl in Ht. rewrite Ht.
      eexists. split; [reflexivity|]. simpl. now rewrite Hval.
Qed.

(** C1 (as the code has it).  A tree of string, number or integer, boolean,
    array and object nodes, without union nodes and without a property
    named [__proto__], translates, and the result has (a) the same property
    names, in the same order, at every position, (b) the same nesting depth
    and (c) at every array node the item type of the source, with
    ["integer"] read as ["number"]. *)
Theorem union_free_translation_preserves_shape (s : JsonSchema) :
  union_free s = true ->
  ordinary_names s = true ->
  exists g,
    jsonSchemaToGeminiSchema s = Return g
    /\ (forall p, names_at p (target_shape g) = names_at p (source_shape s))
    /\ depth (target_shape g) = depth (source_shape s)
    /\ (forall p, item_type_at p (target_shape g)
                  = option_map numeric (item_type_at p (source_shape s))).
Proof.
  intros Hfree Hord. destruct (union_free_shape s Hfree Hord) as [g [Hg Hshape]].
  exists g. rewrite Hshape. split; [exact Hg|]. split; [|split].
  - intros p. apply names_at_collapse.
  - apply depth_collapse.
  - intros p. apply item_type_at_collapse.
Qed.

(** ** Counterexamples and instances for the translator *)

(** C1 as stated fails at three trees of the six node kinds: a union node is
    not translated at all, an array of integers is translated to an array
    whose declared item type is ["number"], and an object with a property
    named [__proto__] is translated to an object without it. *)
Lemma shape_not_preserved_for_unions_and_integers :
  (canonical string_or_number = true
   /\ jsonSchemaToGeminiSchema string_or_number
      = Throw (Error "Unsupported JSON Schema type: undefined"))
  /\ (canonical integers = true
      /\ exists g, jsonSchemaToGeminiSchema integers = Return g
                   /\ item_type_at [] (source_shape integers) = Some "integer"
                   /\ item_type_at [] (target_shape g) = Some "number"
                   /\ ~ shape_preserved integers g)
  /\ (canonical with_proto_property = true
      /\ exists g, jsonSchemaToGeminiSchema with_proto_property = Return g
                   /\ names_at [] (source_shape with_proto_property)
                      = Some ["__proto__"; "a"]
                   /\ names_at [] (target_shape g) = Some ["a"]
                   /\ ~ shape_preserved with_proto_property g).
Proof.
  split; [split; reflexivity|]. split.
  - split; [reflexivity|].
    exists (ArraySchema (TypeSchema SchemaType.NUMBER)).
    repeat split. intros (_ & _ & Hitems). specialize (Hitems []). discriminate.
  - split; [reflexivity|].
    exists (ObjectSchema [("a", TypeSchema SchemaType.BOOLEAN)] []).
    repeat split. intros (Hnames & _). specialize (Hnames []). discriminate.
Qed.

Lemma union_free_translation_preserves_shape_CVSchema :
  union_free CVSchema = true
  /\ ordinary_names CVSchema = true
  /\ exists g,
       jsonSchemaToGeminiSchema CVSchema = Return g
       /\ (forall p, names_at p (target_shape g) = names_at p (source_shape CVSchema))
       /\ depth (target_shape g) = depth (source_shape CVSchema)
       /\ (forall p, item_type_at p (target_shape g)
                     = option_map numeric (item_type_at p (source_shape CVSchema))).
Proof.
  split; [reflexivity|]. split; [reflexivity|].
  apply (union_free_translation_preserves_shape CVSchema); reflexivity.
Defined.

(** C2 as stated fails at the integer node: its translation is the one of
    the number node, [{ type: NUMBER }], not [{ type: INTEGER }]. *)
Lemma integer_translated_as_number :
  jsonSchemaToGeminiSchema (of_type "integer")
  = jsonSchemaToGeminiSchema (of_type "number")
  /\ jsonSchemaToGeminiSchema (of_type "integer")
     = Return (TypeSchema SchemaType.NUMBER)
  /\ jsonSchemaToGeminiSchema (of_type "integer")
     <> Return (TypeSchema SchemaType.INTEGER).
Proof.
  repeat split. discriminate.
Qed.

Lemma numeric_types_collapse_to_NUMBER_integer :
  type_is (type (of_type "integer")) "number"
  || type_is (type (of_type "integer")) "integer" = true
  /\ jsonSchemaToGeminiSchema (of_type "integer")
     = Return (TypeSchema SchemaType.NUMBER).
Proof.
  split; [reflexivity|].
  apply (numeric_types_collapse_to_NUMBER (of_type "integer")). reflexivity.
Defined.

Lemma unsupported_type_is_rejected_null_property :
  node_at [Property "b"] with_null_property = Some (of_type "null")
  /\ recognized (type (of_type "null")) = false
  /\ jsonSchemaToGeminiSchema (of_type "null")
     = Throw (Error (unsupported_prefix ++ "null"))
  /\ exists ty, jsonSchemaToGeminiSchema with_null_property
                = Throw (Error (unsupported_prefix ++ type_to_string ty)).
Proof.
  split; [reflexivity|]. split; [reflexivity|].
  apply (@unsupported_type_is_rejected with_null_property (of_type "null")
           [Property "b"]); reflexivity.
Defined.

Lemma object_node_translation_proto :
  type_is (TypeName "object") "object" = true
  /\ distinct (keys with_proto_entries) = true
  /\ jsonSchemaToGeminiSchema with_proto_property
     = Return (ObjectSchema [("a", TypeSchema SchemaType.BOOLEAN)] []).
Proof.
  split; [reflexivity|]. split; [reflexivity|].
  apply (proj1 (proj2
           (@object_node_translation (TypeName "object") with_proto_entries None
              None None [] eq_refl eq_refl))
           [("__proto__", TypeSchema SchemaType.STRING);
            ("a", TypeSchema SchemaType.BOOLEAN)]).
  repeat constructor.
Defined.

(** * Properties of the clients *)

Local Open Scope string_scope.

(** ** [JSON.parse] is strict *)

Example decode_document :
  JSON.decode (" { " ++ quoted "a" ++ " : [1, -2.50e3, true, null] } ")
  = Some (JObject [("a", JArray [JNumber 1 0; JNumber (-250) 1; JBool true; JNull])]).
Proof. reflexivity. Qed.

Example decode_escapes :
  JSON.decode (quoted "a\nb\u0041")
  = Some (JString ("a" ++ LF ++ "bA")).
Proof. reflexivity. Qed.

Example decode_last_member_wins :
  JSON.decode ("{" ++ quoted "a" ++ ":1," ++ quoted "b" ++ ":2,"
               ++ quoted "a" ++ ":3}")
  = Some (JObject [("a", JNumber 3 0); ("b", JNumber 2 0)]).
Proof. reflexivity. Qed.

Example decode_rejects :
  JSON.decode "" = None
  /\ JSON.decode "not-json" = None
  /\ JSON.decode "[1,]" = None
  /\ JSON.decode "01" = None
  /\ JSON.decode "1." = None
  /\ JSON.decode "nul" = None
  /\ JSON.decode "{a:1}" = None
  /\ JSON.decode "1 2" = None
  /\ JSON.decode (quote ++ "open") = None.
Proof. repeat split. Qed.

Lemma append_assoc (a b c : string) : (a ++ b) ++ c = a ++ (b ++ c).
Proof.
  induction a as [|x a IH]; simpl; [reflexivity | now rewrite IH].
Qed.

Lemma append_empty_r (a : string) : a ++ "" = a.
Proof.
  induction a as [|x a IH]; simpl; [reflexivity | now rewrite IH].
Qed.

Lemma openAIMessages_id (messages : list Message) :
  ChatGPTClient.openAIMessages messages = messages.
Proof.
  unfold ChatGPTClient.openAIMessages.
  induction messages as [|[r c] ms IH]; simpl; [reflexivity | now rewrite IH].
Qed.

(** The place of one message in the prompt. *)
Lemma join_middle (sep x : string) (pre post : list string) :
  join sep (pre ++ x :: post)
  = match pre with [] => "" | _ :: _ => join sep pre ++ sep end
    ++ x
    ++ match post with [] => "" | _ :: _ => sep ++ join sep post end.
Proof.
  unfold join. induction pre as [|y pre IH].
  - simpl. destruct post; [now rewrite append_empty_r | reflexivity].
  - destruct pre as [|z pre].
    + simpl in *. rewrite IH. now rewrite !append_assoc.
    + change (String.concat sep (((y :: z :: pre) ++ x :: post)%list))
        with (y ++ sep ++ String.concat sep (((z :: pre) ++ x :: post)%list)).
      rewrite IH.
      change (String.concat sep (y :: z :: pre))
        with (y ++ sep ++ String.concat sep (z :: pre)).
      now rewrite !append_assoc.
Qed.

(** C8 as stated fails for the Gemini client: two different conversations
    are sent as one and the same prompt, so the call does not carry the
    sequence of messages. *)
Lemma gemini_prompt_not_injective :
  one_turn <> two_turns
  /\ GeminiClient.prompt one_turn = GeminiClient.prompt two_turns
  /\ ~ (forall ms1 ms2,
          GeminiClient.prompt ms1 = GeminiClient.prompt ms2 -> ms1 = ms2).
Proof.
  assert (Hneq : one_turn <> two_turns) by discriminate.
  assert (Heq : GeminiClient.prompt one_turn = GeminiClient.prompt two_turns)
    by reflexivity.
  repeat split; try assumption.
  intros H. apply Hneq. now apply H.
Qed.

(** C8 (as the code has it).  The OpenAI request carries the given messages
    themselves, same roles and contents in the same order.  The Gemini call
    carries one prompt text, sent whenever the schema translates: each
    message is written as its role in upper case, a colon and a space, and
    its content; the messages follow each other in conversation order with
    an empty line between them. *)
Theorem messages_in_request
  (gpt : ChatGPTClient.t) (config : StructuredOutputConfig)
  (pre post : list Message) (msg : Message) :
  OpenAI.messages (ChatGPTClient.request gpt (pre ++ msg :: post) config)
  = (pre ++ msg :: post)%list
  /\ GeminiClient.prompt (pre ++ msg :: post)
     = match pre with
       | [] => ""
       | _ :: _ => GeminiClient.prompt pre ++ LF ++ LF
       end
       ++ (toUpperCase (role_string (role msg)) ++ ": " ++ content msg)
       ++ match post with
          | [] => ""
          | _ :: _ => LF ++ LF ++ GeminiClient.prompt post
          end
  /\ GeminiClient.prompt [] = ""
  /\ (forall gem,
        match GeminiClient.request gem (pre ++ msg :: post) config with
        | Return (_, sent) => sent = GeminiClient.prompt (pre ++ msg :: post)
        | Throw e => jsonSchemaToGeminiSchema (schema config) = Throw e
        end).
Proof.
  split; [apply openAIMessages_id|]. split; [|split; [reflexivity|]].
  - unfold GeminiClient.prompt. rewrite map_app. simpl map.
    rewrite join_middle. fold (GeminiClient.line msg).
    destruct pre, post; simpl map; cbv iota; rewrite ?append_assoc; reflexivity.
  - intros gem. unfold GeminiClient.request.
    destruct (jsonSchemaToGeminiSchema (schema config)); reflexivity.
Qed.

(** C10.  The request of either client does not depend on
    [config.schemaDescription], and the Gemini request does not depend on
    [config.schemaName] either. *)
Theorem request_independent_of_description
  (gpt : ChatGPTClient.t) (gem : GeminiClient.t) (messages : list Message)
  (s : JsonSchema) (name name' : string) (description description' : option string) :
  ChatGPTClient.request gpt messages (mkConfig s name description)
  = ChatGPTClient.request gpt messages (mkConfig s name description')
  /\ GeminiClient.request gem messages (mkConfig s name description)
     = GeminiClient.request gem messages (mkConfig s name' description').
Proof.
  split; reflexivity.
Qed.

(** ** Decoding *)

Lemma chatgpt_success
  (syntaxErrorMessage : string -> string) (gpt : ChatGPTClient.t)
  (messages : list Message) (config : StructuredOutputConfig)
  (completion : OpenAI.ChatCompletion) (message : OpenAI.ChatCompletionMessage)
  (text : string) (value : Json) :
  ChatGPTClient.create gpt (ChatGPTClient.request gpt messages config)
  = Return completion ->
  ChatGPTClient.first_message completion = Some message ->
  truthy (OpenAI.refusal message) = None ->
  truthy (OpenAI.content message) = Some text ->
  JSON.decode text = Some value ->
  ChatGPTClient.chatWithStructuredOutput syntaxErrorMessage gpt messages config
  = Return (mkResponse value completion).
Proof.
  intros Hcreate Hmsg Hrefusal Hcontent Hdecode.
  unfold ChatGPTClient.chatWithStructuredOutput. rewrite Hcreate. simpl.
  unfold ChatGPTClient.decode_completion.
  rewrite Hmsg, Hrefusal, Hcontent. unfold JSON_parse. now rewrite Hdecode.
Qed.

Lemma gemini_success
  (syntaxErrorMessage : string -> string) (gem : GeminiClient.t)
  (messages : list Message) (config : StructuredOutputConfig)
  (g : GeminiSchema) (result : Gemini.GenerateContentResult)
  (text : string) (value : Json) :
  jsonSchemaToGeminiSchema (schema config) = Return g ->
  GeminiClient.generateContent gem (GeminiClient.modelParams gem g)
    (GeminiClient.prompt messages) = Return result ->
  Gemini.text (Gemini.response result) = Return text ->
  JSON.decode text = Some value ->
  GeminiClient.chatWithStructuredOutput syntaxErrorMessage gem messages config
  = Return (mkResponse value result).
Proof.
  intros Hg Hcall Htext Hdecode.
  unfold GeminiClient.chatWithStructuredOutput, GeminiClient.request.
  rewrite Hg. simpl. rewrite Hcall. simpl.
  unfold GeminiClient.decode_result. rewrite Htext. simpl.
  unfold JSON_parse. now rewrite Hdecode.
Qed.

Lemma gemini_parse_failure
  (syntaxErrorMessage : string -> string) (result : Gemini.GenerateContentResult)
  (text : string) :
  Gemini.text (Gemini.response result) = Return text ->
  JSON.decode text = None ->
  GeminiClient.decode_result syntaxErrorMessage result
  = Throw (Error ("Failed to parse Gemini JSON response: " ++ text)).
Proof.
  intros Htext Hdecode. unfold GeminiClient.decode_result.
  rewrite Htext. simpl bind. unfold JSON_parse. now rewrite Hdecode.
Qed.

Lemma chatgpt_parse_failure
  (syntaxErrorMessage : string -> string) (completion : OpenAI.ChatCompletion)
  (message : OpenAI.ChatCompletionMessage) (text : string) :
  ChatGPTClient.first_message completion = Some message ->
  truthy (OpenAI.refusal message) = None ->
  truthy (OpenAI.content message) = Some text ->
  JSON.decode text = None ->
  ChatGPTClient.decode_completion syntaxErrorMessage completion
  = Throw (SyntaxError (syntaxErrorMessage text)).
Proof.
  intros Hmsg Hrefusal Hcontent Hdecode. unfold ChatGPTClient.decode_completion.
  rewrite Hmsg, Hrefusal, Hcontent. unfold JSON_parse. now rewrite Hdecode.
Qed.

Lemma chatgpt_refusal
  (syntaxErrorMessage : string -> string) (completion : OpenAI.ChatCompletion)
  (message : OpenAI.ChatCompletionMessage) (reason : string) :
  ChatGPTClient.first_message completion = Some message ->
  truthy (OpenAI.refusal message) = Some reason ->
  ChatGPTClient.decode_completion syntaxErrorMessage completion
  = Throw (Error ("OpenAI refused to respond: " ++ reason)).
Proof.
  intros Hmsg Hrefusal. unfold ChatGPTClient.decode_completion.
  now rewrite Hmsg, Hrefusal.
Qed.

Lemma chatgpt_empty
  (syntaxErrorMessage : string -> string) (completion : OpenAI.ChatCompletion) :
  (ChatGPTClient.first_message completion = None ->
   ChatGPTClient.decode_completion syntaxErrorMessage completion
   = Throw (Error "No response from OpenAI"))
  /\ (forall message,
        ChatGPTClient.first_message completion = Some message ->
        truthy (OpenAI.refusal message) = None ->
        truthy (OpenAI.content message) = None ->
        ChatGPTClient.decode_completion syntaxErrorMessage completion
        = Throw (Error "No content in OpenAI response")).
Proof.
  unfold ChatGPTClient.decode_completion. split.
  - now intros ->.
  - now intros message -> -> ->.
Qed.



(** C9.  When the backend's text is a JSON document, each client returns
    [{ data, rawResponse }] with the decoded document as [data] and the
    backend's whole answer as [rawResponse]: the OpenAI client for a first
    message without refusal, whatever the schema is, and the Gemini client
    for a schema that translates.  With a backend answering the text of
    Bob's document, [data] is the object with name Bob and age 42. *)
Theorem success_envelope
  (syntaxErrorMessage : string -> string)
  (messages : list Message) (config : StructuredOutputConfig) :
  (forall (gpt : ChatGPTClient.t) (completion : OpenAI.ChatCompletion)
          (message : OpenAI.ChatCompletionMessage) (text : string) (value : Json),
     ChatGPTClient.create gpt (ChatGPTClient.request gpt messages config)
     = Return completion ->
     ChatGPTClient.first_message completion = Some message ->
     truthy (OpenAI.refusal message) = None ->
     truthy (OpenAI.content message) = Some text ->
     JSON.decode text = Some value ->
     ChatGPTClient.chatWithStructuredOutput syntaxErrorMessage gpt messages config
     = Return {| data := value; rawResponse := completion |})
  /\ (forall (gem : GeminiClient.t) (g : GeminiSchema)
             (result : Gemini.GenerateContentResult) (text : string) (value : Json),
        jsonSchemaToGeminiSchema (schema config) = Return g ->
        GeminiClient.generateContent gem (GeminiClient.modelParams gem g)
          (GeminiClient.prompt messages) = Return result ->
        Gemini.text (Gemini.response result) = Return text ->
        JSON.decode text = Some value ->
        GeminiClient.chatWithStructuredOutput syntaxErrorMessage gem messages config
        = Return {| data := value; rawResponse := result |})
  /\ (JSON.decode bob_text = Some bob
      /\ ChatGPTClient.chatWithStructuredOutput syntaxErrorMessage
           (chatgpt_answering (completion_with (Some bob_text) None))
           person_messages person_config
         = Return {| data := bob;
                     rawResponse := completion_with (Some bob_text) None |}
      /\ GeminiClient.chatWithStructuredOutput syntaxErrorMessage
           (gemini_answering (gemini_result (Return bob_text) None))
           person_messages person_config
         = Return {| data := bob;
                     rawResponse := gemini_result (Return bob_text) None |}).
Proof.
  split; [|split].
  - intros gpt completion message text value. apply chatgpt_success.
  - intros gem g result text value. apply gemini_success.
  - repeat split.
Qed.

Lemma success_envelope_bob :
  ChatGPTClient.chatWithStructuredOutput terse_message
    (chatgpt_answering (completion_with (Some bob_text) None))
    person_messages union_config
  = Return {| data := bob; rawResponse := completion_with (Some bob_text) None |}
  /\ GeminiClient.chatWithStructuredOutput terse_message
       (gemini_answering (gemini_result (Return bob_text) None))
       person_messages person_config
     = Return {| data := bob; rawResponse := gemini_result (Return bob_text) None |}.
Proof.
  split.
  - apply (proj1 (success_envelope terse_message person_messages union_config)
             (chatgpt_answering (completion_with (Some bob_text) None))
             (completion_with (Some bob_text) None)
             {| OpenAI.content := Some bob_text; OpenAI.refusal := None |}
             bob_text bob); reflexivity.
  - apply (proj1 (proj2 (success_envelope terse_message person_messages
                           person_config))
             (gemini_answering (gemini_result (Return bob_text) None))
             (ObjectSchema [("name", TypeSchema SchemaType.STRING);
                            ("age", TypeSchema SchemaType.NUMBER)] ["name"; "age"])
             (gemini_result (Return bob_text) None) bob_text bob); reflexivity.
Defined.

(** C5 at its failing input.  With a backend text that stops short the
    OpenAI client lets the [SyntaxError] of [JSON.parse] through as it is:
    the exception is not one of the client's own and its message is the
    engine's, which for the end of the input does not quote the text, while
    the Gemini client throws its own [Error] with the text in the
    message. *)
Theorem parse_failure_at_truncated_json (syntaxErrorMessage : string -> string) :
  JSON.decode truncated_text = None
  /\ ChatGPTClient.chatWithStructuredOutput syntaxErrorMessage
       (chatgpt_answering (completion_with (Some truncated_text) None))
       person_messages person_config
     = Throw (SyntaxError (syntaxErrorMessage truncated_text))
  /\ ChatGPTClient.chatWithStructuredOutput end_of_input_message
       (chatgpt_answering (completion_with (Some truncated_text) None))
       person_messages person_config
     = Throw (SyntaxError "Unexpected end of JSON input")
  /\ includes truncated_text "Unexpected end of JSON input" = false
  /\ GeminiClient.chatWithStructuredOutput syntaxErrorMessage
       (gemini_answering (gemini_result (Return truncated_text) None))
       person_messages person_config
     = Throw (Error ("Failed to parse Gemini JSON response: " ++ truncated_text))
  /\ includes truncated_text
       ("Failed to parse Gemini JSON response: " ++ truncated_text) = true.
Proof.
  repeat split.
Qed.



(** C7 at its failing input.  The OpenAI client throws
    [Error("No response from OpenAI")] for a completion without a message
    and [Error("No content in OpenAI response")] for a missing or empty
    content.  The Gemini client has no such check: an empty text goes to
    [JSON.parse] and comes back as the parse-failure exception. *)
Theorem empty_payload (syntaxErrorMessage : string -> string) :
  GeminiClient.chatWithStructuredOutput syntaxErrorMessage
    (gemini_answering (gemini_result (Return "") None))
    person_messages person_config
  = Throw (Error "Failed to parse Gemini JSON response: ")
  /\ ChatGPTClient.chatWithStructuredOutput syntaxErrorMessage
       (chatgpt_answering no_choices) person_messages person_config
     = Throw (Error "No response from OpenAI")
  /\ ChatGPTClient.chatWithStructuredOutput syntaxErrorMessage
       (chatgpt_answering (completion_with None None))
       person_messages person_config
     = Throw (Error "No content in OpenAI response")
  /\ ChatGPTClient.chatWithStructuredOutput syntaxErrorMessage
       (chatgpt_answering (completion_with (Some "") None))
       person_messages person_config
     = Throw (Error "No content in OpenAI response").
Proof.
  repeat split.
Qed.

(** * Further properties of the translator *)

Lemma translate_entries_returns_all (es : Entries JsonSchema) :
  forall acc,
    returns (translate_entries es acc)
    = forallb (fun kv => returns (jsonSchemaToGeminiSchema (snd kv))) es.
Proof.
  induction es as [|[k v] es IH]; intros acc; simpl; [reflexivity|].
  destruct (jsonSchemaToGeminiSchema v) as [g|e]; simpl; [apply IH | reflexivity].
Qed.

Lemma returns_bind_Return {A B : Type} (c : Outcome A) (f : A -> B) :
  returns (x <- c ;; Return (f x)) = returns c.
Proof. destruct c; reflexivity. Qed.

Lemma forallb_pointwise {A : Type} (f g : A -> bool) (l : list A) :
  Forall (fun x => f x = g x) l -> forallb f l = forallb g l.
Proof.
  induction 1 as [|x l Hx _ IH]; simpl; [reflexivity | now rewrite Hx, IH].
Qed.

(** The translation returns a tree exactly for the supported trees; for
    every other tree it throws. *)
Theorem translation_returns_iff_supported (s : JsonSchema) :
  returns (jsonSchemaToGeminiSchema s) = supported s.
Proof.
  induction s as [ty props its req alts kw IHprops IHits _] using JsonSchema_tree_ind.
  rewrite jsonSchemaToGeminiSchema_eq. simpl.
  assert (Hleaf :
    returns
      (if type_is ty "string" then Return (TypeSchema SchemaType.STRING)
       else if type_is ty "number" || type_is ty "integer"
            then Return (TypeSchema SchemaType.NUMBER)
       else if type_is ty "boolean" then Return (TypeSchema SchemaType.BOOLEAN)
       else Throw (Error (unsupported_prefix ++ type_to_string ty)))
    = is_primitive ty).
  { unfold is_primitive.
    destruct (type_is ty "string"), (type_is ty "number"),
      (type_is ty "integer"), (type_is ty "boolean"); reflexivity. }
  assert (Harr :
    returns
      match type_is ty "array", its with
      | true, Some it =>
          translated <- jsonSchemaToGeminiSchema it ;; Return (ArraySchema translated)
      | _, _ =>
          if type_is ty "string" then Return (TypeSchema SchemaType.STRING)
          else if type_is ty "number" || type_is ty "integer"
               then Return (TypeSchema SchemaType.NUMBER)
          else if type_is ty "boolean" then Return (TypeSchema SchemaType.BOOLEAN)
          else Throw (Error (unsupported_prefix ++ type_to_string ty))
      end
    = match type_is ty "array", its with
      | true, Some it => supported it
      | _, _ => is_primitive ty
      end).
  { destruct (type_is ty "array"); [|exact Hleaf].
    destruct its as [it|]; [|exact Hleaf].
    rewrite returns_bind_Return. exact IHits. }
  destruct (type_is ty "object"); [|exact Harr].
  destruct props as [entries|]; [|exact Harr].
  rewrite returns_bind_Return, translate_entries_returns_all.
  apply forallb_pointwise. exact IHprops.
Qed.

Lemma translate_entries_pointwise (f : JsonSchema -> JsonSchema)
  (es : Entries JsonSchema) :
  Forall (fun kv => jsonSchemaToGeminiSchema (f (snd kv))
                    = jsonSchemaToGeminiSchema (snd kv)) es ->
  forall acc,
    translate_entries (map (fun kv => (fst kv, f (snd kv))) es) acc
    = translate_entries es acc.
Proof.
  induction 1 as [|[k v] es Hv _ IH]; intros acc; simpl; [reflexivity|].
  simpl in Hv. rewrite Hv.
  destruct (jsonSchemaToGeminiSchema v); simpl; [apply IH | reflexivity].
Qed.

(** The translation reads [type], [properties], [items] and [required] and
    nothing else: [anyOf] and every other keyword ([description], [enum],
    [format], [additionalProperties], ...) leave the outcome unchanged,
    wherever in the tree they stand. *)
Theorem translation_ignores_other_keywords (s : JsonSchema) :
  jsonSchemaToGeminiSchema (strip s) = jsonSchemaToGeminiSchema s.
Proof.
  induction s as [ty props its req alts kw IHprops IHits _] using JsonSchema_tree_ind.
  rewrite !jsonSchemaToGeminiSchema_eq. simpl.
  destruct (type_is ty "object").
  - destruct props as [entries|]; simpl.
    + now rewrite (translate_entries_pointwise strip IHprops).
    + destruct (type_is ty "array"); [|reflexivity].
      destruct its as [it|]; simpl; [now rewrite IHits | reflexivity].
  - destruct (type_is ty "array"); [|reflexivity].
    destruct its as [it|]; simpl; [now rewrite IHits | reflexivity].
Qed.

(** An [object] node without [properties] and an [array] node without
    [items] are rejected like an unknown type, with their own type name in
    the message. *)
Theorem container_without_content_is_rejected (s : JsonSchema) :
  (type_is (type s) "object"
   && match properties s with Some _ => false | None => true end)
  || (type_is (type s) "array"
      && match items s with Some _ => false | None => true end) = true ->
  jsonSchemaToGeminiSchema s
  = Throw (Error (unsupported_prefix ++ type_to_string (type s)))
  /\ (type_to_string (type s) = "object" \/ type_to_string (type s) = "array").
Proof.
  intros H. rewrite jsonSchemaToGeminiSchema_eq.
  destruct (type s) as [|n|ns]; try discriminate. unfold type_is in *.
  apply orb_true_iff in H. destruct H as [H|H];
    apply andb_true_iff in H; destruct H as [Hty Hnone];
    apply String.eqb_eq in Hty; subst n; simpl.
  - destruct (properties s); [discriminate|]. split; [reflexivity | now left].
  - destruct (items s); [discriminate|]. split; [reflexivity | now right].
Qed.

Lemma container_without_content_is_rejected_object :
  jsonSchemaToGeminiSchema untyped_object
  = Throw (Error "Unsupported JSON Schema type: object").
Proof.
  apply (@container_without_content_is_rejected untyped_object). reflexivity.
Defined.

Lemma forallb_obj_set {T : Type} (P : T -> bool) (o : Entries T)
  (key : string) (value : T) :
  forallb (fun kv => P (snd kv)) o = true -> P value = true ->
  forallb (fun kv => P (snd kv)) (obj_set o key value) = true.
Proof.
  intros Ho Hv. unfold obj_set.
  destruct (String.eqb key "__proto__"); [exact Ho|].
  induction o as [|[k v] o IH]; simpl in *.
  - now rewrite Hv.
  - apply andb_true_iff in Ho as [Hk Hrest].
    destruct (String.eqb k key); simpl.
    + now rewrite Hv, Hrest.
    + now rewrite Hk, IH.
Qed.

Lemma translate_entries_forallb (P : GeminiSchema -> bool)
  (es : Entries JsonSchema) :
  Forall (fun kv => forall g, jsonSchemaToGeminiSchema (snd kv) = Return g ->
                              P g = true) es ->
  forall acc props,
    forallb (fun kg => P (snd kg)) acc = true ->
    translate_entries es acc = Return props ->
    forallb (fun kg => P (snd kg)) props = true.
Proof.
  induction 1 as [|[k v] es Hv _ IH]; intros acc props Hacc Hret; simpl in Hret.
  - now injection Hret as <-.
  - simpl in Hv. destruct (jsonSchemaToGeminiSchema v) as [g|e]; [|discriminate].
    simpl in Hret. apply (IH (obj_set acc k g)); [|exact Hret].
    apply forallb_obj_set; [exact Hacc | now apply Hv].
Qed.

(** Every leaf of a translated tree is [STRING], [NUMBER] or [BOOLEAN]:
    the translator never writes [INTEGER], and never a bare [ARRAY] or
    [OBJECT] without items or properties. *)
Theorem translation_writes_three_leaf_kinds (s : JsonSchema) (g : GeminiSchema) :
  jsonSchemaToGeminiSchema s = Return g -> leaf_kinds_only g = true.
Proof.
  revert g.
  induction s as [ty props its req alts kw IHprops IHits _] using JsonSchema_tree_ind.
  intros g. rewrite jsonSchemaToGeminiSchema_eq. simpl.
  assert (Hleaf :
    (if type_is ty "string" then Return (TypeSchema SchemaType.STRING)
     else if type_is ty "number" || type_is ty "integer"
          then Return (TypeSchema SchemaType.NUMBER)
     else if type_is ty "boolean" then Return (TypeSchema SchemaType.BOOLEAN)
     else Throw (Error (unsupported_prefix ++ type_to_string ty))) = Return g ->
    leaf_kinds_only g = true).
  { destruct (type_is ty "string"); [now intros [= <-]|].
    destruct (type_is ty "number" || type_is ty "integer"); [now intros [= <-]|].
    destruct (type_is ty "boolean"); [now intros [= <-] | discriminate]. }
  assert (Harr :
    match type_is ty "array", its with
    | true, Some it =>
        translated <- jsonSchemaToGeminiSchema it ;; Return (ArraySchema translated)
    | _, _ =>
        if type_is ty "string" then Return (TypeSchema SchemaType.STRING)
        else if type_is ty "number" || type_is ty "integer"
             then Return (TypeSchema SchemaType.NUMBER)
        else if type_is ty "boolean" then Return (TypeSchema SchemaType.BOOLEAN)
        else Throw (Error (unsupported_prefix ++ type_to_string ty))
    end = Return g -> leaf_kinds_only g = true).
  { destruct (type_is ty "array"); [|exact Hleaf].
    destruct its as [it|]; [|exact Hleaf].
    destruct (jsonSchemaToGeminiSchema it) as [gi|e] eqn:E; simpl; [|discriminate].
    intros [= <-]. simpl. now apply IHits. }
  destruct (type_is ty "object"); [|exact Harr].
  destruct props as [entries|]; [|exact Harr].
  destruct (translate_entries entries []) as [ps|e] eqn:E; simpl; [|discriminate].
  intros [= <-]. simpl.
  now apply (@translate_entries_forallb leaf_kinds_only entries IHprops [] ps).
Qed.

Lemma translation_writes_three_leaf_kinds_CVSchema :
  exists g, jsonSchemaToGeminiSchema CVSchema = Return g
            /\ leaf_kinds_only g = true.
Proof.
  eexists. split; [reflexivity|].
  eapply (@translation_writes_three_leaf_kinds CVSchema). reflexivity.
Defined.

Lemma translated_entries_keys (es : Entries JsonSchema)
  (props : Entries GeminiSchema) :
  Forall2 translated_entry es props -> keys props = keys es.
Proof.
  induction 1 as [|kv kg es ps [Hk _] _ IH]; simpl; [reflexivity|].
  now rewrite Hk, IH.
Qed.

Lemma translate_entries_inv (es : Entries JsonSchema)
  (props : Entries GeminiSchema) :
  distinct (keys es) = true ->
  translate_entries es [] = Return props ->
  exists ps, Forall2 translated_entry es ps /\ props = own_entries ps.
Proof.
  intros Hd Hret.
  assert (Hall : Forall (fun kv => returns (jsonSchemaToGeminiSchema (snd kv)) = true) es).
  { apply Forall_forall. intros kv Hin.
    pose proof (translate_entries_returns_all es []) as Hr.
    rewrite Hret in Hr. simpl in Hr. symmetry in Hr.
    rewrite forallb_forall in Hr. now apply Hr. }
  destruct (translate_entries_total Hall) as [ps H2].
  exists ps. split; [exact H2|].
  rewrite (@translate_entries_returns es [] ps) in Hret.
  - simpl in Hret. now injection Hret as <-.
  - simpl. now apply distinct_NoDup.
  - exact H2.
Qed.

Lemma translated_entries_lookup (es : Entries JsonSchema)
  (props : Entries GeminiSchema) (key : string) :
  Forall2 translated_entry es props ->
  match obj_get es key with
  | Some v => exists g, jsonSchemaToGeminiSchema v = Return g
                        /\ obj_get props key = Some g
  | None => obj_get props key = None
  end.
Proof.
  induction 1 as [|[k v] [k' g] es ps [Hk Hv] _ IH]; simpl; [reflexivity|].
  simpl in Hk, Hv. subst k'.
  destruct (String.eqb k key); [|exact IH]. now exists g.
Qed.

(** Looking a property up commutes with the translation of an object node,
    but for the name [__proto__]: under any other name the source has, the
    result holds the translation of the source's property; under a name
    the source lacks, the result has no property either; and under
    [__proto__] the result has no property of its own, whether the source
    has one or not. *)
Theorem translated_property_lookup
  (ty : TypeField) (entries : Entries JsonSchema) (its : option JsonSchema)
  (req : option (list string)) (alts : option (list JsonSchema))
  (kw : Entries Json) (g : GeminiSchema) :
  type_is ty "object" = true ->
  distinct (keys entries) = true ->
  jsonSchemaToGeminiSchema (mkJsonSchema ty (Some entries) its req alts kw)
  = Return g ->
  exists props,
    g = ObjectSchema props (or_empty req)
    /\ forall key,
         if String.eqb key "__proto__" then obj_get props key = None
         else
           match obj_get entries key with
           | Some v => exists child, jsonSchemaToGeminiSchema v = Return child
                                     /\ obj_get props key = Some child
           | None => obj_get props key = None
           end.
Proof.
  intros Hty Hd. rewrite jsonSchemaToGeminiSchema_eq. simpl. rewrite Hty.
  destruct (translate_entries entries []) as [props|e] eqn:E; simpl; [|discriminate].
  intros [= <-]. exists props. split; [reflexivity|].
  destruct (translate_entries_inv entries Hd E) as [ps [H2 ->]].
  intros key. rewrite obj_get_own_entries.
  destruct (String.eqb key "__proto__"); [reflexivity|].
  now apply translated_entries_lookup.
Qed.

Lemma translated_property_lookup_proto :
  exists props,
    jsonSchemaToGeminiSchema with_proto_property = Return (ObjectSchema props [])
    /\ obj_get props "a" = Some (TypeSchema SchemaType.BOOLEAN)
    /\ obj_get props "b" = None
    /\ obj_get props "__proto__" = None.
Proof.
  destruct (@translated_property_lookup (TypeName "object") with_proto_entries None
              None None []
              (ObjectSchema [("a", TypeSchema SchemaType.BOOLEAN)] [])
              eq_refl eq_refl eq_refl) as [props [Heq Hlookup]].
  exists props. injection Heq as <-. repeat split.
Defined.

(** In a schema without a property named [__proto__], a relation between
    the property names and the required list that holds at every object
    node of the source holds at every object node of the translation: in
    particular a schema in which every property is required stays one, and
    required names that are all declared stay declared. *)
Theorem translation_keeps_required_relation
  (R : list string -> list string -> bool) (s : JsonSchema) (g : GeminiSchema) :
  source_objects R s = true ->
  ordinary_names s = true ->
  jsonSchemaToGeminiSchema s = Return g ->
  target_objects R g = true.
Proof.
  revert g.
  induction s as [ty props its req alts kw IHprops IHits _] using JsonSchema_tree_ind.
  intros g Hsrc Hord. rewrite jsonSchemaToGeminiSchema_eq. simpl in *.
  assert (Hleaf :
    (if type_is ty "string" then Return (TypeSchema SchemaType.STRING)
     else if type_is ty "number" || type_is ty "integer"
          then Return (TypeSchema SchemaType.NUMBER)
     else if type_is ty "boolean" then Return (TypeSchema SchemaType.BOOLEAN)
     else Throw (Error (unsupported_prefix ++ type_to_string ty))) = Return g ->
    target_objects R g = true).
  { destruct (type_is ty "string"); [now intros [= <-]|].
    destruct (type_is ty "number" || type_is ty "integer"); [now intros [= <-]|].
    destruct (type_is ty "boolean"); [now intros [= <-] | discriminate]. }
  destruct (type_is ty "object").
  - destruct props as [entries|].
    + apply andb_true_iff in Hsrc as [Hsrc Hchildren].
      apply andb_true_iff in Hsrc as [Hd HR].
      apply andb_true_iff in Hord as [Hnone Hordall].
      apply negb_true_iff in Hnone.
      destruct (translate_entries entries []) as [props|e] eqn:E; simpl;
        [|discriminate].
      intros [= <-]. simpl.
      destruct (translate_entries_inv entries Hd E) as [ps [H2 Hown]].
      assert (Hkeys : keys props = keys entries).
      { rewrite Hown, own_entries_ordinary;
          rewrite (translated_entries_keys H2); [reflexivity | exact Hnone]. }
      rewrite Hkeys, HR. simpl.
      apply (@translate_entries_forallb (target_objects R) entries) with (acc := []);
        [|reflexivity | exact E].
      rewrite forallb_forall in Hchildren, Hordall.
      rewrite Forall_forall in IHprops |- *.
      intros kv Hin child Hchild. apply (IHprops kv Hin); [| |exact Hchild].
      * now apply Hchildren.
      * now apply Hordall.
    + destruct (type_is ty "array"); [|exact Hleaf].
      destruct its as [it|]; [|exact Hleaf].
      destruct (jsonSchemaToGeminiSchema it) as [gi|e]; simpl; [|discriminate].
      intros [= <-]. simpl. now apply IHits.
  - destruct (type_is ty "array"); [|exact Hleaf].
    destruct its as [it|]; [|exact Hleaf].
    destruct (jsonSchemaToGeminiSchema it) as [gi|e]; simpl; [|discriminate].
    intros [= <-]. simpl. now apply IHits.
Qed.

Lemma translation_keeps_required_relation_CVSchema :
  source_objects all_required CVSchema = true
  /\ ordinary_names CVSchema = true
  /\ exists g, jsonSchemaToGeminiSchema CVSchema = Return g
               /\ target_objects all_required g = true.
Proof.
  split; [reflexivity|]. split; [reflexivity|].
  eexists. split; [reflexivity|].
  eapply (@translation_keeps_required_relation all_required CVSchema);
    reflexivity.
Defined.

(** * Further properties of the clients *)

Lemma truthy_Some (v : option string) (s : string) :
  truthy v = Some s -> v = Some s /\ s <> "".
Proof.
  destruct v as [[|c r]|]; simpl; try discriminate.
  intros [= <-]. split; [reflexivity | discriminate].
Qed.

(** A refusal comes first: when the first message of the completion has a
    non-empty [refusal], the OpenAI client throws
    [Error("OpenAI refused to respond: <refusal>")] whatever the content
    is, and decodes nothing. *)
Theorem chatgpt_refusal_wins
  (syntaxErrorMessage : string -> string) (gpt : ChatGPTClient.t)
  (messages : list Message) (config : StructuredOutputConfig)
  (completion : OpenAI.ChatCompletion) (message : OpenAI.ChatCompletionMessage)
  (reason : string) :
  ChatGPTClient.create gpt (ChatGPTClient.request gpt messages config)
  = Return completion ->
  ChatGPTClient.first_message completion = Some message ->
  truthy (OpenAI.refusal message) = Some reason ->
  ChatGPTClient.chatWithStructuredOutput syntaxErrorMessage gpt messages config
  = Throw (Error ("OpenAI refused to respond: " ++ reason))
  /\ OpenAI.refusal message = Some reason /\ reason <> "".
Proof.
  intros Hcreate Hmsg Hrefusal. split.
  - unfold ChatGPTClient.chatWithStructuredOutput. rewrite Hcreate. simpl.
    now apply chatgpt_refusal with message.
  - now apply truthy_Some.
Qed.

Lemma chatgpt_refusal_wins_policy :
  ChatGPTClient.chatWithStructuredOutput terse_message
    (chatgpt_answering (completion_with (Some "not-json") (Some "policy violation")))
    person_messages person_config
  = Throw (Error "OpenAI refused to respond: policy violation").
Proof.
  apply (@chatgpt_refusal_wins terse_message
           (chatgpt_answering
              (completion_with (Some "not-json") (Some "policy violation")))
           person_messages person_config
           (completion_with (Some "not-json") (Some "policy violation"))
           {| OpenAI.content := Some "not-json";
              OpenAI.refusal := Some "policy violation" |}
           "policy violation"); reflexivity.
Defined.

(** Without a refusal, a completion with no choice (or a choice without a
    message) gives [Error("No response from OpenAI")], and a message whose
    content is missing or empty gives [Error("No content in OpenAI
    response")]; an empty refusal text counts as no refusal. *)
Theorem chatgpt_empty_answers
  (syntaxErrorMessage : string -> string) (gpt : ChatGPTClient.t)
  (messages : list Message) (config : StructuredOutputConfig)
  (completion : OpenAI.ChatCompletion) :
  ChatGPTClient.create gpt (ChatGPTClient.request gpt messages config)
  = Return completion ->
  match ChatGPTClient.first_message completion with
  | None =>
      ChatGPTClient.chatWithStructuredOutput syntaxErrorMessage gpt messages config
      = Throw (Error "No response from OpenAI")
  | Some message =>
      (OpenAI.refusal message = None \/ OpenAI.refusal message = Some "") ->
      (OpenAI.content message = None \/ OpenAI.content message = Some "") ->
      ChatGPTClient.chatWithStructuredOutput syntaxErrorMessage gpt messages config
      = Throw (Error "No content in OpenAI response")
  end.
Proof.
  intros Hcreate. unfold ChatGPTClient.chatWithStructuredOutput.
  rewrite Hcreate. simpl. unfold ChatGPTClient.decode_completion.
  destruct (ChatGPTClient.first_message completion) as [message|]; [|reflexivity].
  intros [-> | ->] [-> | ->]; reflexivity.
Qed.

Lemma chatgpt_empty_answers_no_choices :
  ChatGPTClient.chatWithStructuredOutput terse_message
    (chatgpt_answering no_choices) person_messages person_config
  = Throw (Error "No response from OpenAI").
Proof.
  apply (@chatgpt_empty_answers terse_message (chatgpt_answering no_choices)
           person_messages person_config no_choices eq_refl).
Defined.

(** The exceptions of the OpenAI client are five: the one the backend call
    rejects with, the two of an empty answer, the refusal, and the
    [SyntaxError] of a content that is not JSON. *)
Theorem chatgpt_throws_only
  (syntaxErrorMessage : string -> string) (gpt : ChatGPTClient.t)
  (messages : list Message) (config : StructuredOutputConfig) (e : JsError) :
  ChatGPTClient.chatWithStructuredOutput syntaxErrorMessage gpt messages config
  = Throw e ->
  ChatGPTClient.create gpt (ChatGPTClient.request gpt messages config) = Throw e
  \/ e = Error "No response from OpenAI"
  \/ (exists reason, reason <> "" /\ e = Error ("OpenAI refused to respond: " ++ reason))
  \/ e = Error "No content in OpenAI response"
  \/ (exists text, JSON.decode text = None
                   /\ e = SyntaxError (syntaxErrorMessage text)).
Proof.
  unfold ChatGPTClient.chatWithStructuredOutput.
  destruct (ChatGPTClient.create gpt (ChatGPTClient.request gpt messages config))
    as [completion|e0]; simpl.
  - unfold ChatGPTClient.decode_completion. intros H. right. revert H.
    destruct (ChatGPTClient.first_message completion) as [message|];
      [|intros [= <-]; now left].
    destruct (truthy (OpenAI.refusal message)) as [reason|] eqn:Hr.
    + intros [= <-]. right. left. exists reason.
      split; [now apply truthy_Some in Hr | reflexivity].
    + destruct (truthy (OpenAI.content message)) as [text|];
        [|intros [= <-]; tauto].
      unfold JSON_parse. destruct (JSON.decode text) eqn:E; simpl; [discriminate|].
      intros [= <-]. do 3 right. now exists text.
  - intros [= <-]. now left.
Qed.

Lemma chatgpt_throws_only_not_json :
  exists text, JSON.decode text = None
               /\ SyntaxError (terse_message "not-json")
                  = SyntaxError (terse_message text).
Proof.
  destruct (@chatgpt_throws_only terse_message
              (chatgpt_answering (completion_with (Some "not-json") None))
              person_messages person_config
              (SyntaxError (terse_message "not-json")) eq_refl)
    as [H | [H | [[r [_ H]] | [H | H]]]]; try discriminate.
  exact H.
Defined.

(** A returned envelope is never made up: the backend answered with
    [rawResponse], its first message has no refusal and a non-empty content,
    and [data] is the decoding of that content. *)
Theorem chatgpt_returns_only
  (syntaxErrorMessage : string -> string) (gpt : ChatGPTClient.t)
  (messages : list Message) (config : StructuredOutputConfig)
  (r : StructuredOutputResponse OpenAI.ChatCompletion) :
  ChatGPTClient.chatWithStructuredOutput syntaxErrorMessage gpt messages config
  = Return r ->
  ChatGPTClient.create gpt (ChatGPTClient.request gpt messages config)
  = Return (rawResponse r)
  /\ exists message text,
       ChatGPTClient.first_message (rawResponse r) = Some message
       /\ truthy (OpenAI.refusal message) = None
       /\ OpenAI.content message = Some text
       /\ text <> ""
       /\ JSON.decode text = Some (data r).
Proof.
  unfold ChatGPTClient.chatWithStructuredOutput.
  destruct (ChatGPTClient.create gpt (ChatGPTClient.request gpt messages config))
    as [completion|e0]; simpl; [|discriminate].
  unfold ChatGPTClient.decode_completion.
  destruct (ChatGPTClient.first_message completion) as [message|] eqn:Hm;
    [|discriminate].
  destruct (truthy (OpenAI.refusal message)) eqn:Hr; [discriminate|].
  destruct (truthy (OpenAI.content message)) as [text|] eqn:Hc; [|discriminate].
  unfold JSON_parse. destruct (JSON.decode text) as [v|] eqn:E; simpl;
    [|discriminate].
  intros [= <-]. simpl. split; [reflexivity|].
  apply truthy_Some in Hc as [Hc Hne].
  exists message, text. repeat split; assumption.
Qed.

Lemma chatgpt_returns_only_bob :
  exists message text,
    ChatGPTClient.first_message (completion_with (Some bob_text) None) = Some message
    /\ truthy (OpenAI.refusal message) = None
    /\ OpenAI.content message = Some text
    /\ text <> ""
    /\ JSON.decode text = Some bob.
Proof.
  apply (@chatgpt_returns_only terse_message
           (chatgpt_answering (completion_with (Some bob_text) None))
           person_messages person_config
           {| data := bob; rawResponse := completion_with (Some bob_text) None |}
           eq_refl).
Defined.

(** A text that is not JSON never leaves the Gemini client as a
    [SyntaxError]: whatever the text, the client throws its own
    [Error("Failed to parse Gemini JSON response: <text>")] with the whole
    text in the message. *)
Theorem gemini_parse_failure_quotes_text
  (syntaxErrorMessage : string -> string) (gem : GeminiClient.t)
  (messages : list Message) (config : StructuredOutputConfig)
  (g : GeminiSchema) (result : Gemini.GenerateContentResult) (text : string) :
  jsonSchemaToGeminiSchema (schema config) = Return g ->
  GeminiClient.generateContent gem (GeminiClient.modelParams gem g)
    (GeminiClient.prompt messages) = Return result ->
  Gemini.text (Gemini.response result) = Return text ->
  JSON.decode text = None ->
  GeminiClient.chatWithStructuredOutput syntaxErrorMessage gem messages config
  = Throw (Error ("Failed to parse Gemini JSON response: " ++ text)).
Proof.
  intros Hg Hcall Htext Hdecode.
  unfold GeminiClient.chatWithStructuredOutput, GeminiClient.request.
  rewrite Hg. simpl. rewrite Hcall. simpl.
  now apply gemini_parse_failure.
Qed.

Lemma gemini_parse_failure_quotes_text_not_json :
  GeminiClient.chatWithStructuredOutput terse_message
    (gemini_answering (gemini_result (Return "not-json") None))
    person_messages person_config
  = Throw (Error "Failed to parse Gemini JSON response: not-json").
Proof.
  apply (@gemini_parse_failure_quotes_text terse_message
           (gemini_answering (gemini_result (Return "not-json") None))
           person_messages person_config
           (ObjectSchema [("name", TypeSchema SchemaType.STRING);
                          ("age", TypeSchema SchemaType.NUMBER)] ["name"; "age"])
           (gemini_result (Return "not-json") None) "not-json");
    reflexivity.
Defined.

(** The exceptions of the Gemini client are four: the translator's for a
    schema it has no case for, the one [generateContent] rejects with, the
    one [response.text()] throws, and the client's own parse failure. *)
Theorem gemini_throws_only
  (syntaxErrorMessage : string -> string) (gem : GeminiClient.t)
  (messages : list Message) (config : StructuredOutputConfig) (e : JsError) :
  GeminiClient.chatWithStructuredOutput syntaxErrorMessage gem messages config
  = Throw e ->
  jsonSchemaToGeminiSchema (schema config) = Throw e
  \/ (exists g,
        jsonSchemaToGeminiSchema (schema config) = Return g
        /\ (GeminiClient.generateContent gem (GeminiClient.modelParams gem g)
              (GeminiClient.prompt messages) = Throw e
            \/ exists result,
                 GeminiClient.generateContent gem (GeminiClient.modelParams gem g)
                   (GeminiClient.prompt messages) = Return result
                 /\ (Gemini.text (Gemini.response result) = Throw e
                     \/ exists text,
                          Gemini.text (Gemini.response result) = Return text
                          /\ JSON.decode text = None
                          /\ e = Error ("Failed to parse Gemini JSON response: "
                                        ++ text)))).
Proof.
  unfold GeminiClient.chatWithStructuredOutput, GeminiClient.request.
  destruct (jsonSchemaToGeminiSchema (schema config)) as [g|e0]; simpl;
    [|intros [= <-]; now left].
  intros H. right. exists g. split; [reflexivity|]. revert H.
  destruct (GeminiClient.generateContent gem (GeminiClient.modelParams gem g)
              (GeminiClient.prompt messages)) as [result|e0]; simpl;
    [|intros [= <-]; now left].
  intros H. right. exists result. split; [reflexivity|]. revert H.
  unfold GeminiClient.decode_result.
  destruct (Gemini.text (Gemini.response result)) as [text|e0]; simpl;
    [|intros [= <-]; now left].
  unfold JSON_parse. destruct (JSON.decode text) eqn:E; simpl; [discriminate|].
  intros [= <-]. right. now exists text.
Qed.

Lemma gemini_throws_only_union :
  GeminiClient.chatWithStructuredOutput terse_message
    (gemini_answering (gemini_result (Return bob_text) None))
    person_messages union_config
  = Throw (Error "Unsupported JSON Schema type: undefined")
  /\ (jsonSchemaToGeminiSchema (schema union_config)
      = Throw (Error "Unsupported JSON Schema type: undefined")
      \/ exists g, jsonSchemaToGeminiSchema (schema union_config) = Return g).
Proof.
  split; [reflexivity|].
  destruct (@gemini_throws_only terse_message
              (gemini_answering (gemini_result (Return bob_text) None))
              person_messages union_config
              (Error "Unsupported JSON Schema type: undefined") eq_refl)
    as [H | [g [H _]]].
  - now left.
  - right. now exists g.
Defined.

(** A returned envelope is never made up: the schema translated, the
    backend answered with [rawResponse] to the translated schema and the
    prompt, and [data] is the decoding of its text. *)
Theorem gemini_returns_only
  (syntaxErrorMessage : string -> string) (gem : GeminiClient.t)
  (messages : list Message) (config : StructuredOutputConfig)
  (r : StructuredOutputResponse Gemini.GenerateContentResult) :
  GeminiClient.chatWithStructuredOutput syntaxErrorMessage gem messages config
  = Return r ->
  exists g text,
    jsonSchemaToGeminiSchema (schema config) = Return g
    /\ GeminiClient.generateContent gem (GeminiClient.modelParams gem g)
         (GeminiClient.prompt messages) = Return (rawResponse r)
    /\ Gemini.text (Gemini.response (rawResponse r)) = Return text
    /\ JSON.decode text = Some (data r).
Proof.
  unfold GeminiClient.chatWithStructuredOutput, GeminiClient.request.
  destruct (jsonSchemaToGeminiSchema (schema config)) as [g|e0]; simpl;
    [|discriminate].
  destruct (GeminiClient.generateContent gem (GeminiClient.modelParams gem g)
              (GeminiClient.prompt messages)) as [result|e0] eqn:Hcall; simpl;
    [|discriminate].
  unfold GeminiClient.decode_result.
  destruct (Gemini.text (Gemini.response result)) as [text|e0] eqn:Ht; simpl;
    [|discriminate].
  unfold JSON_parse. destruct (JSON.decode text) as [v|] eqn:E; simpl;
    [|discriminate].
  intros [= <-]. simpl. exists g, text. repeat split; assumption.
Qed.

Lemma gemini_returns_only_bob :
  exists g text,
    jsonSchemaToGeminiSchema (schema person_config) = Return g
    /\ GeminiClient.generateContent
         (gemini_answering (gemini_result (Return bob_text) None))
         (GeminiClient.modelParams
            (gemini_answering (gemini_result (Return bob_text) None)) g)
         (GeminiClient.prompt person_messages)
       = Return (gemini_result (Return bob_text) None)
    /\ Gemini.text (Gemini.response (gemini_result (Return bob_text) None))
       = Return text
    /\ JSON.decode text = Some bob.
Proof.
  apply (@gemini_returns_only terse_message
           (gemini_answering (gemini_result (Return bob_text) None))
           person_messages person_config
           {| data := bob; rawResponse := gemini_result (Return bob_text) None |}
           eq_refl).
Defined.

(** What the backend call rejects with, and what [response.text()] throws,
    reaches the caller as it is: neither client wraps, retries or replaces
    it.  For the OpenAI client this holds whatever the schema is; the
    Gemini client calls its backend once the schema has translated. *)
Theorem backend_errors_pass_through
  (syntaxErrorMessage : string -> string)
  (messages : list Message) (config : StructuredOutputConfig) (e : JsError) :
  (forall gpt : ChatGPTClient.t,
     ChatGPTClient.create gpt (ChatGPTClient.request gpt messages config) = Throw e ->
     ChatGPTClient.chatWithStructuredOutput syntaxErrorMessage gpt messages config
     = Throw e)
  /\ (forall (gem : GeminiClient.t) (g : GeminiSchema),
        jsonSchemaToGeminiSchema (schema config) = Return g ->
        (GeminiClient.generateContent gem (GeminiClient.modelParams gem g)
           (GeminiClient.prompt messages) = Throw e
         \/ exists result,
              GeminiClient.generateContent gem (GeminiClient.modelParams gem g)
                (GeminiClient.prompt messages) = Return result
              /\ Gemini.text (Gemini.response result) = Throw e) ->
        GeminiClient.chatWithStructuredOutput syntaxErrorMessage gem messages config
        = Throw e).
Proof.
  split.
  - intros gpt Hcreate.
    unfold ChatGPTClient.chatWithStructuredOutput. now rewrite Hcreate.
  - intros gem g Hg Hgem.
    unfold GeminiClient.chatWithStructuredOutput, GeminiClient.request.
    rewrite Hg. simpl. destruct Hgem as [-> | [result [-> Htext]]]; simpl;
      [reflexivity|].
    unfold GeminiClient.decode_result. now rewrite Htext.
Qed.

Lemma backend_errors_pass_through_connection :
  ChatGPTClient.chatWithStructuredOutput terse_message
    (chatgpt_failing connection_refused) person_messages union_config
  = Throw connection_refused
  /\ GeminiClient.chatWithStructuredOutput terse_message
       (gemini_failing connection_refused) person_messages person_config
     = Throw connection_refused.
Proof.
  split.
  - apply (proj1 (backend_errors_pass_through terse_message person_messages
                    union_config connection_refused)
             (chatgpt_failing connection_refused) eq_refl).
  - apply (proj2 (backend_errors_pass_through terse_message person_messages
                    person_config connection_refused)
             (gemini_failing connection_refused)
             (ObjectSchema [("name", TypeSchema SchemaType.STRING);
                            ("age", TypeSchema SchemaType.NUMBER)] ["name"; "age"])
             eq_refl).
    now left.
Defined.

(** A schema the translator rejects stops the Gemini client before the
    backend is asked: the call throws the translator's exception whatever
    the backend would do, while the OpenAI client sends the same schema
    untranslated. *)
Theorem gemini_rejects_schema_before_the_call
  (syntaxErrorMessage : string -> string)
  (messages : list Message) (config : StructuredOutputConfig) (e : JsError) :
  jsonSchemaToGeminiSchema (schema config) = Throw e ->
  (forall gem,
     GeminiClient.chatWithStructuredOutput syntaxErrorMessage gem messages config
     = Throw e)
  /\ (forall gpt,
        OpenAI.schema
          (OpenAI.json_schema
             (OpenAI.response_format (ChatGPTClient.request gpt messages config)))
        = schema config).
Proof.
  intros Hg. split; [|reflexivity].
  intros gem. unfold GeminiClient.chatWithStructuredOutput, GeminiClient.request.
  now rewrite Hg.
Qed.

Lemma gemini_rejects_schema_before_the_call_union :
  GeminiClient.chatWithStructuredOutput terse_message
    (gemini_answering (gemini_result (Return bob_text) None))
    person_messages union_config
  = Throw (Error "Unsupported JSON Schema type: undefined").
Proof.
  apply (@gemini_rejects_schema_before_the_call terse_message person_messages
           union_config (Error "Unsupported JSON Schema type: undefined") eq_refl).
Defined.

(** One message can be read back from its line of the prompt: two messages
    with the same line have the same role and the same content. *)
Theorem line_injective (m1 m2 : Message) :
  GeminiClient.line m1 = GeminiClient.line m2 -> m1 = m2.
Proof.
  destruct m1 as [r1 c1], m2 as [r2 c2]. unfold GeminiClient.line. simpl.
  destruct r1, r2; simpl; intros H; try discriminate;
    injection H as ->; reflexivity.
Qed.

Lemma line_injective_user :
  GeminiClient.line (mkMessage user "hi") = "USER: hi"
  /\ mkMessage user "hi" = {| role := user; content := "hi" |}.
Proof.
  split; [reflexivity|].
  apply (@line_injective (mkMessage user "hi") {| role := user; content := "hi" |}
           eq_refl).
Defined.

(** Only the first choice of a completion is read: further choices and the
    identifier change neither the exception nor the data. *)
Theorem only_first_choice_is_read
  (syntaxErrorMessage : string -> string)
  (id id' : string) (first : OpenAI.Choice) (others : list OpenAI.Choice) :
  outcome_data
    (ChatGPTClient.decode_completion syntaxErrorMessage
       {| OpenAI.id := id; OpenAI.choices := first :: others |})
  = outcome_data
      (ChatGPTClient.decode_completion syntaxErrorMessage
         {| OpenAI.id := id'; OpenAI.choices := [first] |}).
Proof.
  unfold ChatGPTClient.decode_completion, ChatGPTClient.first_message. simpl.
  destruct (OpenAI.message first) as [message|]; [|reflexivity].
  destruct (truthy (OpenAI.refusal message)); [reflexivity|].
  destruct (truthy (OpenAI.content message)) as [text|]; [|reflexivity].
  destruct (JSON_parse syntaxErrorMessage text); reflexivity.
Qed.

(** * Properties of the sample program *)

Lemma report_console {Raw : Type} (rt : Demo.Runtime) (st : Demo.State)
  (startTime : Z) (outcome : Outcome (StructuredOutputResponse Raw)) :
  exists out,
    Demo.console (Demo.report rt st startTime outcome)
    = (Demo.console st ++ out)%list
    /\ (length out = 1 \/ length out = 3).
Proof.
  destruct outcome as [response|error]; simpl.
  - eexists [_; _; _]. split; [|now right].
    now rewrite <- !app_assoc.
  - eexists [_]. split; [reflexivity | now left].
Qed.

Lemma testChatGPT_console (rt : Demo.Runtime) (st : Demo.State) :
  exists out,
    Demo.console (Demo.testChatGPT rt st)
    = (Demo.console st
       ++ Demo.console_log
            (LF ++ "=== Testing OpenAI ChatGPT Structured Output ===" ++ LF)
       :: out)%list
    /\ (length out = 1 \/ length out = 3).
Proof.
  unfold Demo.testChatGPT.
  destruct (truthy (Demo.env rt "OPENAI_API_KEY")) as [apiKey|].
  - match goal with
    | |- context [Demo.report rt ?s ?t ?o] =>
        destruct (report_console rt s t o) as [out [Hout Hlen]]
    end.
    exists out. split; [|exact Hlen]. rewrite Hout. simpl.
    now rewrite <- app_assoc.
  - eexists [_]. split; [|now left]. simpl. now rewrite <- app_assoc.
Qed.

Lemma testGemini_console (rt : Demo.Runtime) (st : Demo.State) :
  exists out,
    Demo.console (Demo.testGemini rt st)
    = (Demo.console st
       ++ Demo.console_log
            (LF ++ "=== Testing Google Gemini Structured Output ===" ++ LF)
       :: out)%list
    /\ (length out = 1 \/ length out = 3).
Proof.
  unfold Demo.testGemini.
  destruct (truthy (Demo.env rt "GOOGLE_AI_API_KEY")) as [apiKey|].
  - match goal with
    | |- context [Demo.report rt ?s ?t ?o] =>
        destruct (report_console rt s t o) as [out [Hout Hlen]]
    end.
    exists out. split; [|exact Hlen]. rewrite Hout. simpl.
    now rewrite <- app_assoc.
  - eexists [_]. split; [|now left]. simpl. now rewrite <- app_assoc.
Qed.

(** The sample program always runs to its end: whatever the environment
    and the backends do, the console shows the title, the OpenAI test (one
    line of failure or three of success), then the Gemini test likewise,
    then the closing line.  A failure of the first test does not keep the
    second from running. *)
Theorem main_runs_both_tests (rt : Demo.Runtime) :
  exists first second,
    Demo.console (Demo.main rt)
    = (Demo.console_log
         ("POC: Structured Output Comparison - OpenAI vs Gemini" ++ LF)
       :: Demo.console_log
            (LF ++ "=== Testing OpenAI ChatGPT Structured Output ===" ++ LF)
       :: first
       ++ Demo.console_log
            (LF ++ "=== Testing Google Gemini Structured Output ===" ++ LF)
       :: second
       ++ [Demo.console_log (LF ++ "=== Test Complete ===" ++ LF)])%list
    /\ (length first = 1 \/ length first = 3)
    /\ (length second = 1 \/ length second = 3).
Proof.
  unfold Demo.main.
  set (st0 := Demo.say _ Demo.start).
  destruct (testChatGPT_console rt st0) as [first [H1 L1]].
  destruct (testGemini_console rt (Demo.testChatGPT rt st0)) as [second [H2 L2]].
  exists first, second. split; [|split; assumption].
  unfold Demo.say at 1. cbn [Demo.console]. rewrite H2, H1.
  subst st0. simpl. now rewrite <- !app_assoc.
Qed.

(** The key of a test is read from the environment; when it is not set, or
    set to the empty text, the test reports that and asks nothing of its
    backend.  With neither key the program prints six lines and reads no
    clock, whatever the backends and the clock are. *)
Theorem main_without_keys (rt : Demo.Runtime) :
  (Demo.env rt "OPENAI_API_KEY" = None \/ Demo.env rt "OPENAI_API_KEY" = Some "") ->
  (Demo.env rt "GOOGLE_AI_API_KEY" = None
   \/ Demo.env rt "GOOGLE_AI_API_KEY" = Some "") ->
  Demo.main rt
  = {| Demo.console :=
         [Demo.console_log
            ("POC: Structured Output Comparison - OpenAI vs Gemini" ++ LF);
          Demo.console_log
            (LF ++ "=== Testing OpenAI ChatGPT Structured Output ===" ++ LF);
          Demo.console_error "OPENAI_API_KEY not found in environment variables";
          Demo.console_log
            (LF ++ "=== Testing Google Gemini Structured Output ===" ++ LF);
          Demo.console_error
            "GOOGLE_AI_API_KEY not found in environment variables";
          Demo.console_log (LF ++ "=== Test Complete ===" ++ LF)];
       Demo.readings := 0 |}.
Proof.
  intros Hopenai Hgoogle. unfold Demo.main, Demo.testChatGPT, Demo.testGemini.
  destruct Hopenai as [-> | ->], Hgoogle as [-> | ->]; reflexivity.
Qed.

Lemma main_without_keys_no_keys :
  Demo.readings (Demo.main Demo.no_keys) = 0
  /\ length (Demo.console (Demo.main Demo.no_keys)) = 6.
Proof.
  rewrite (@main_without_keys Demo.no_keys (or_introl eq_refl) (or_introl eq_refl)).
  split; reflexivity.
Defined.




